(** * The script mode of the Vue language server (modes/script/javascript.ts)

    A shallow embedding of [getJavascriptMode] and its helpers: the
    span/range translator, the kind classifiers, the program-membership
    guard, the outline builder, the formatting clipper and the two-pass
    completion protocol, followed by the properties proved about them.

    The TypeScript language service, the service host and the other imported
    modules are collaborators of this file.  Their answers are taken as
    parameters (classes [ExtTypes] and [Externals]); every call the mode
    makes to them is recorded in a trace, so that statements such as
    "returns without asking the engine anything further" can be stated. *)

From stdpp Require Import gmap strings list fin_maps pretty.
From Stdlib Require Import ZArith Lia.

Set Warnings "-register-all".
#[local] Open Scope Z_scope.

(** ** JavaScript values, as far as the configuration objects need them *)

Inductive jsval : Type :=
| JUndefined
| JNull
| JBool (b : bool)
| JNum (n : Z)
| JStr (s : string)
| JObj (o : gmap string jsval).

Inductive JsError : Type :=
| TypeError (msg : string).

Inductive result (A : Type) : Type :=
| Ok (a : A)
| Throw (e : JsError).
Arguments Ok {A} a.
Arguments Throw {A} e.

(** [ToBoolean]. *)
Definition truthy (v : jsval) : bool :=
  match v with
  | JUndefined | JNull => false
  | JBool b => b
  | JNum n => negb (n =? 0)
  | JStr s => negb (String.eqb s "")
  | JObj _ => true
  end.

(** [v.k] for the property names this file reads ([vetur], [format], [js],
    [InsertSpaceBeforeFunctionParenthesis]): none of them is a property of a
    primitive's wrapper, so a primitive answers [undefined]; reading a
    property of [undefined] or [null] throws. *)
Definition get_prop (v : jsval) (k : string) : result jsval :=
  match v with
  | JUndefined => Throw (TypeError ("Cannot read property '" +:+ k +:+ "' of undefined"))
  | JNull => Throw (TypeError ("Cannot read property '" +:+ k +:+ "' of null"))
  | JObj o => Ok (default JUndefined (o !! k))
  | JBool _ | JNum _ | JStr _ => Ok JUndefined
  end.

(** The own enumerable properties of a string: its characters, by index. *)
Definition string_index_props (s : string) : gmap string jsval :=
  list_to_map (imap (fun (i : nat) c => (pretty i, JStr (String c ""))) (String.list_ascii_of_string s)).

(** lodash's [_.assign(object, source)]: falsy sources are skipped, the own
    enumerable string-keyed properties of the others are written over
    [object]'s. *)
Definition assign (object : gmap string jsval) (source : jsval) : gmap string jsval :=
  if truthy source then
    match source with
    | JObj o => o ∪ object
    | JStr s => string_index_props s ∪ object
    | _ => object
    end
  else object.

(** ** Text documents *)

Record Position := { line : Z; character : Z }.
Record Range := { range_start : Position; range_end : Position }.

Record TextDocument := {
  uri : string;
  languageId : string;
  version : Z;
  getText : string
}.

Definition LF : Ascii.ascii := Ascii.ascii_of_nat 10.
Definition CR : Ascii.ascii := Ascii.ascii_of_nat 13.

Definition content_length (document : TextDocument) : Z :=
  Z.of_nat (String.length (getText document)).

(** Modelled from the spec: [TextDocument.positionAt] and
    [TextDocument.offsetAt] belong to the language-server protocol library,
    which is not part of this repository.  The spec's "line/column position
    model" resolved "using the embedded document's own content" is modelled
    as that library defines it: a line starts at offset 0 and after every
    CR, LF or CR LF; a position is the line holding the offset and the
    distance to that line's start; offsets and positions out of range are
    clamped. *)
Fixpoint lineStartsFrom (i : Z) (text : string) : list Z :=
  match text with
  | EmptyString => []
  | String c rest =>
      if Ascii.eqb c CR then
        match rest with
        | String c' rest' =>
            if Ascii.eqb c' LF then (i + 2) :: lineStartsFrom (i + 2) rest'
            else (i + 1) :: lineStartsFrom (i + 1) rest
        | EmptyString => (i + 1) :: lineStartsFrom (i + 1) rest
        end
      else if Ascii.eqb c LF then (i + 1) :: lineStartsFrom (i + 1) rest
      else lineStartsFrom (i + 1) rest
  end.

(** Modelled from the spec: the line starts of the document's content (part
    of the absent [TextDocument]); empty for an empty content. *)
Definition getLineOffsets (document : TextDocument) : list Z :=
  match getText document with
  | EmptyString => []
  | text => 0 :: lineStartsFrom 0 text
  end.

(** Modelled from the spec: the search of [positionAt] (absent), which ends
    on the line whose start is the last one not after [offset]. *)
Fixpoint locate (ln lineStart : Z) (later : list Z) (offset : Z) : Position :=
  match later with
  | next :: later' =>
      if next >? offset then {| line := ln; character := offset - lineStart |}
      else locate (ln + 1) next later' offset
  | [] => {| line := ln; character := offset - lineStart |}
  end.

(** Modelled from the spec: [TextDocument.positionAt] (absent), the
    line/column position of an offset, clamped to the content. *)
Definition positionAt (document : TextDocument) (offset : Z) : Position :=
  let offset := Z.max (Z.min offset (content_length document)) 0 in
  match getLineOffsets document with
  | [] => {| line := 0; character := offset |}
  | first :: later => locate 0 first later offset
  end.

(** Modelled from the spec: the body of [TextDocument.offsetAt] (absent),
    the inverse lookup: the line's start plus the column, kept within the
    line. *)
Definition offsetIn (lineOffsets : list Z) (len : Z) (position : Position) : Z :=
  if line position >=? Z.of_nat (length lineOffsets) then len
  else if line position <? 0 then 0
  else
    let lineOffset := default 0 (lineOffsets !! Z.to_nat (line position)) in
    let nextLineOffset := default len (lineOffsets !! Z.to_nat (line position + 1)) in
    Z.max (Z.min (lineOffset + character position) nextLineOffset) lineOffset.

(** Modelled from the spec: [TextDocument.offsetAt] (absent). *)
Definition offsetAt (document : TextDocument) (position : Position) : Z :=
  offsetIn (getLineOffsets document) (content_length document) position.

(** ** Protocol types (vscode-languageserver-types) *)

Record TextEdit := { te_range : Range; newText : string }.
Record Location := { loc_uri : string; loc_range : Range }.

Inductive DiagnosticSeverity := SeverityError | SeverityWarning | SeverityInformation | SeverityHint.
Record Diagnostic := { diag_range : Range; severity : DiagnosticSeverity; message : string }.

Inductive CompletionItemKind :=
| CIK_Text | CIK_Method | CIK_Function | CIK_Constructor | CIK_Field | CIK_Variable
| CIK_Class | CIK_Interface | CIK_Module | CIK_Property | CIK_Unit | CIK_Value
| CIK_Enum | CIK_Keyword | CIK_Snippet | CIK_Color | CIK_File | CIK_Reference.

Inductive SymbolKind :=
| SK_File | SK_Module | SK_Namespace | SK_Package | SK_Class | SK_Method | SK_Property
| SK_Field | SK_Constructor | SK_Enum | SK_Interface | SK_Function | SK_Variable
| SK_Constant | SK_String | SK_Number | SK_Boolean | SK_Array.

(** The correlation payload of a completion item ([item.data]). *)
Record CompletionData := { data_languageId : string; data_uri : string; data_offset : Z }.

Record CompletionItem := {
  item_uri : option string;
  item_position : option Position;
  label : string;
  sortText : option string;
  item_kind : option CompletionItemKind;
  textEdit : option TextEdit;
  data : option CompletionData;
  detail : option string;
  documentation : option string
}.

Record CompletionList := { isIncomplete : bool; items : list CompletionItem }.

Inductive MarkedString :=
| MarkedText (value : string)
| MarkedCode (language value : string).
Record Hover := { hover_range : option Range; contents : list MarkedString }.

Record ParameterInformation := { param_label : string; param_documentation : string }.
Record SignatureInformation := {
  sig_label : string;
  sig_documentation : option string;
  parameters : list ParameterInformation
}.
Record SignatureHelp := {
  activeSignature : Z;
  activeParameter : Z;
  signatures : list SignatureInformation
}.

Inductive DocumentHighlightKind := HighlightText | HighlightRead | HighlightWrite.
Record DocumentHighlight := { hl_range : Range; hl_kind : DocumentHighlightKind }.

Record SymbolInformation := {
  name : string;
  kind : SymbolKind;
  location : Location;
  containerName : option string
}.

(** [FormattingOptions]: the two protocol fields and the extra key the
    client sets for an indented script region ([undefined] when absent). *)
Record FormattingOptions := {
  tabSize : Z;
  insertSpaces : bool;
  scriptInitialIndent : jsval
}.

(** ** What the TypeScript language service answers *)

Record TextSpan := { span_start : Z; span_length : Z }.

Record SymbolDisplayPart := { part_text : string; part_kind : string }.

Record CompletionEntry := {
  entry_name : string;
  entry_kind : string;
  entry_sortText : string;
  replacementSpan : option TextSpan
}.
Record CompletionInfo := { entries : list CompletionEntry }.

Record CompletionEntryDetails := {
  details_displayParts : list SymbolDisplayPart;
  details_documentation : list SymbolDisplayPart
}.

Record QuickInfo := {
  info_textSpan : TextSpan;
  info_displayParts : list SymbolDisplayPart;
  info_documentation : list SymbolDisplayPart
}.

Record SignatureHelpParameter := {
  shp_displayParts : list SymbolDisplayPart;
  shp_documentation : list SymbolDisplayPart
}.
Record SignatureHelpItem := {
  prefixDisplayParts : list SymbolDisplayPart;
  suffixDisplayParts : list SymbolDisplayPart;
  separatorDisplayParts : list SymbolDisplayPart;
  shi_parameters : list SignatureHelpParameter
}.
Record SignatureHelpItems := {
  sh_items : list SignatureHelpItem;
  selectedItemIndex : Z;
  argumentIndex : Z
}.

Record ReferenceEntry := {
  ref_textSpan : TextSpan;
  ref_fileName : string;
  isWriteAccess : bool
}.
Record DefinitionInfo := { def_fileName : string; def_textSpan : TextSpan }.
Record TextChange := { change_span : TextSpan; change_newText : string }.

(** A navigation bar item.  The service reports one or more spans per item;
    [spans[0]], the only one the mode reads, is kept apart as [span0].
    [childItems] is [None] for an absent array. *)
Inductive NavigationBarItem : Type :=
| mkNavigationBarItem (text kind : string) (span0 : TextSpan) (moreSpans : list TextSpan)
                      (childItems : option (list NavigationBarItem)).

Definition nav_text (item : NavigationBarItem) : string :=
  match item with mkNavigationBarItem t _ _ _ _ => t end.
Definition nav_kind (item : NavigationBarItem) : string :=
  match item with mkNavigationBarItem _ k _ _ _ => k end.
Definition nav_span0 (item : NavigationBarItem) : TextSpan :=
  match item with mkNavigationBarItem _ _ s _ _ => s end.
Definition nav_childItems (item : NavigationBarItem) : option (list NavigationBarItem) :=
  match item with mkNavigationBarItem _ _ _ _ c => c end.

(** The children of an item, none when the array is absent. *)
Definition children (item : NavigationBarItem) : list NavigationBarItem :=
  default [] (nav_childItems item).

(** ** The helpers at the bottom of the file *)

Definition convertRange (document : TextDocument) (span : TextSpan) : Range :=
  let startPosition := positionAt document (span_start span) in
  let endPosition := positionAt document (span_start span + span_length span) in
  {| range_start := startPosition; range_end := endPosition |}.

Definition str_in (s : string) (cases : list string) : bool :=
  existsb (String.eqb s) cases.

Definition convertKind (kind : string) : CompletionItemKind :=
  if str_in kind ["primitive type"; "keyword"] then CIK_Keyword
  else if str_in kind ["var"; "local var"] then CIK_Variable
  else if str_in kind ["property"; "getter"; "setter"] then CIK_Field
  else if str_in kind ["function"; "method"; "construct"; "call"; "index"] then CIK_Function
  else if str_in kind ["enum"] then CIK_Enum
  else if str_in kind ["module"] then CIK_Module
  else if str_in kind ["class"] then CIK_Class
  else if str_in kind ["interface"] then CIK_Interface
  else if str_in kind ["warning"] then CIK_File
  else CIK_Property.

Definition convertSymbolKind (kind : string) : SymbolKind :=
  if str_in kind ["var"; "local var"; "const"] then SK_Variable
  else if str_in kind ["function"; "local function"] then SK_Function
  else if str_in kind ["enum"] then SK_Enum
  else if str_in kind ["module"] then SK_Module
  else if str_in kind ["class"] then SK_Class
  else if str_in kind ["interface"] then SK_Interface
  else if str_in kind ["method"] then SK_Method
  else if str_in kind ["property"; "getter"; "setter"] then SK_Property
  else SK_Variable.

(** [ts.IndentStyle.Smart]. *)
Definition IndentStyle_Smart : Z := 2.

Definition defaultJsFormattingOptions (options : FormattingOptions) (initialIndentLevel : Z)
  : gmap string jsval :=
  list_to_map [
    ("ConvertTabsToSpaces", JBool (insertSpaces options));
    ("TabSize", JNum (tabSize options));
    ("IndentSize", JNum (tabSize options));
    ("IndentStyle", JNum IndentStyle_Smart);
    ("NewLineCharacter", JStr (String LF ""));
    ("BaseIndentSize", JNum (tabSize options * initialIndentLevel));
    ("InsertSpaceAfterCommaDelimiter", JBool true);
    ("InsertSpaceAfterSemicolonInForStatements", JBool true);
    ("InsertSpaceAfterKeywordsInControlFlowStatements", JBool true);
    ("InsertSpaceAfterFunctionKeywordForAnonymousFunctions", JBool true);
    ("InsertSpaceAfterOpeningAndBeforeClosingNonemptyParenthesis", JBool false);
    ("InsertSpaceAfterOpeningAndBeforeClosingNonemptyBrackets", JBool false);
    ("InsertSpaceAfterOpeningAndBeforeClosingTemplateStringBraces", JBool false);
    ("InsertSpaceBeforeFunctionParenthesis", JBool true);
    ("InsertSpaceBeforeAndAfterBinaryOperators", JBool true);
    ("PlaceOpenBraceOnNewLineForControlBlocks", JBool false);
    ("PlaceOpenBraceOnNewLineForFunctions", JBool false)
  ].

Definition convertOptions (options : FormattingOptions) (formatSettings : jsval)
    (initialIndentLevel : Z) : gmap string jsval :=
  assign (defaultJsFormattingOptions options initialIndentLevel) formatSettings.

(** Reading a field of the settings object handed to the engine. *)
Definition setting (formatSettings : gmap string jsval) (k : string) : jsval :=
  default JUndefined (formatSettings !! k).

(** ** Collaborators

    Types that other modules of the server own.  They stay abstract. *)
Class ExtTypes := {
  HostState : Type;            (* what serviceHost.ts keeps between calls *)
  ComponentInfo : Type;        (* findComponents.ts *)
  MessageText : Type;          (* string | ts.DiagnosticMessageChain *)
  VueDocumentRegions : Type;   (* embeddedSupport.ts *)
  RegionsCache : Type;         (* LanguageModelCache<VueDocumentRegions> *)
  DocumentCache : Type         (* LanguageModelCache<TextDocument> *)
}.

Inductive WorkspacePath :=
| wp_null
| wp_undefined
| wp_string (s : string).

(** [!workspacePath]. *)
Definition wp_falsy (workspacePath : WorkspacePath) : bool :=
  match workspacePath with
  | wp_null | wp_undefined => true
  | wp_string s => String.eqb s ""
  end.

(** What [getJavascriptMode] constructs before it returns. *)
Inductive Creation :=
| NewLanguageModelCache (maxEntries cleanupIntervalTimeInSec : Z)
| NewServiceHost (workspacePath : string).

Section Mode.
Context {T : ExtTypes}.

Record TsDiagnostic := { ts_start : Z; ts_length : Z; messageText : MessageText }.

(** The answers of the language service for the program it currently holds. *)
Record LanguageService := {
  getRootFileNames : list string;
  getSyntacticDiagnostics : string -> list TsDiagnostic;
  getSemanticDiagnostics : string -> list TsDiagnostic;
  getCompletionsAtPosition : string -> Z -> option CompletionInfo;
  getCompletionEntryDetails : string -> Z -> string -> option CompletionEntryDetails;
  getQuickInfoAtPosition : string -> Z -> option QuickInfo;
  getSignatureHelpItems : string -> Z -> option SignatureHelpItems;
  getOccurrencesAtPosition : string -> Z -> option (list ReferenceEntry);
  getNavigationBarItems : string -> option (list NavigationBarItem);
  getDefinitionAtPosition : string -> Z -> option (list DefinitionInfo);
  getReferencesAtPosition : string -> Z -> option (list ReferenceEntry);
  getFormattingEditsForRange : string -> Z -> Z -> gmap string jsval -> option (list TextChange)
}.

(** One entry per call the mode makes to a collaborator.  The [Svc] entries
    are the methods of the language service. *)
Inductive Event :=
| HostUpdateCurrentTextDocument (documentUri : string)
| SvcGetRootFileNames
| SvcGetSyntacticDiagnostics (fileName : string)
| SvcGetSemanticDiagnostics (fileName : string)
| SvcGetCompletionsAtPosition (fileName : string) (offset : Z)
| SvcGetCompletionEntryDetails (fileName : string) (offset : Z) (entryName : string)
| SvcGetQuickInfoAtPosition (fileName : string) (offset : Z)
| SvcGetSignatureHelpItems (fileName : string) (offset : Z)
| SvcGetOccurrencesAtPosition (fileName : string) (offset : Z)
| SvcGetNavigationBarItems (fileName : string)
| SvcGetDefinitionAtPosition (fileName : string) (offset : Z)
| SvcGetReferencesAtPosition (fileName : string) (offset : Z)
| SvcGetFormattingEditsForRange (fileName : string) (start end_ : Z)
                                (formatSettings : gmap string jsval)
| SvcFindComponents (fileName : string)
| SvcDispose
| CacheOnDocumentRemoved (documentUri : string)
| CacheDispose.

(** The closure state of a mode: [config], the service host, and the calls
    made so far. *)
Record ModeState := {
  config : jsval;
  host : HostState;
  trace : list Event
}.

Definition M (A : Type) : Type := ModeState -> result A * ModeState.

#[global] Instance M_ret : MRet M := fun A (a : A) st => (Ok a, st).
#[global] Instance M_bind : MBind M := fun A B (f : A -> M B) (m : M A) st =>
  match m st with
  | (Ok a, st') => f a st'
  | (Throw e, st') => (Throw e, st')
  end.

Definition lift {A} (r : result A) : M A := fun st => (r, st).

Definition record (ev : Event) : M unit := fun st =>
  (Ok tt, {| config := config st; host := host st; trace := trace st ++ [ev] |}).

Definition ask {A} (ev : Event) (answer : A) : M A :=
  record ev;; mret answer.

Definition getConfig : M jsval := fun st => (Ok (config st), st).
Definition setConfig (c : jsval) : M unit := fun st =>
  (Ok tt, {| config := c; host := host st; trace := trace st |}).
Definition getHost : M HostState := fun st => (Ok (host st), st).

(** The interface of languageModes.ts, with its optional operations. *)
Record LanguageMode := {
  lm_getId : unit -> string;
  lm_configure : option (jsval -> M unit);
  lm_doValidation : option (TextDocument -> M (list Diagnostic));
  lm_doComplete : option (TextDocument -> Position -> M CompletionList);
  lm_doResolve : option (TextDocument -> CompletionItem -> M CompletionItem);
  lm_doHover : option (TextDocument -> Position -> M Hover);
  lm_doSignatureHelp : option (TextDocument -> Position -> M SignatureHelp);
  lm_findDocumentHighlight : option (TextDocument -> Position -> M (list DocumentHighlight));
  lm_findDocumentSymbols : option (TextDocument -> M (list SymbolInformation));
  lm_findDefinition : option (TextDocument -> Position -> M (list Location));
  lm_findReferences : option (TextDocument -> Position -> M (list Location));
  lm_format : option (TextDocument -> Range -> FormattingOptions -> M (list TextEdit));
  lm_onDocumentRemoved : TextDocument -> M unit;
  lm_dispose : unit -> M unit
}.

Record ScriptMode := {
  sm_base : LanguageMode;
  sm_findComponents : TextDocument -> M (list ComponentInfo)
}.

(** What this file imports and does not define. *)
Class Externals := {
  getFileFsPath : string -> string;
  getFilePath : string -> string;
  uriFile : string -> string;       (* Uri.file(fileName).toString() *)
  displayPartsToString : list SymbolDisplayPart -> string;
  flattenDiagnosticMessageText : MessageText -> string -> string;
  NULL_SIGNATURE : SignatureHelp;
  NULL_COMPLETION : CompletionItem;
  nullMode : LanguageMode;
  updateCurrentTextDocument :
    HostState -> TextDocument -> TextDocument * LanguageService * HostState;
  getScriptDocByFsPath : HostState -> string -> option TextDocument;
  ext_findComponents : LanguageService -> string -> list ComponentInfo;
  regions_get : RegionsCache -> TextDocument -> VueDocumentRegions;
  getEmbeddedDocumentByType : VueDocumentRegions -> string -> TextDocument;
  getLanguageModelCache : Z -> Z -> (TextDocument -> TextDocument) -> DocumentCache;
  getServiceHost : string -> DocumentCache -> HostState
}.

Context {E : Externals}.

(** [const { scriptDoc, service } = updateCurrentTextDocument(doc)]. *)
Definition refresh (doc : TextDocument) : M (TextDocument * LanguageService) := fun st =>
  let '(scriptDoc, service, host') := updateCurrentTextDocument (host st) doc in
  (Ok (scriptDoc, service),
   {| config := config st; host := host';
      trace := trace st ++ [HostUpdateCurrentTextDocument (uri doc)] |}).

Definition languageServiceIncludesFile (ls : LanguageService) (documentUri : string) : M bool :=
  filePaths ← ask SvcGetRootFileNames (getRootFileNames ls);
  let filePath := getFilePath documentUri in
  mret (bool_decide (filePath ∈ filePaths)).

Definition getId (_ : unit) : string := "javascript".

Definition configure (c : jsval) : M unit := setConfig c.

Definition doValidation (doc : TextDocument) : M (list Diagnostic) :=
  '(scriptDoc, service) ← refresh doc;
  included ← languageServiceIncludesFile service (uri doc);
  if negb included then mret [] else
  let fileFsPath := getFileFsPath (uri doc) in
  syntactic ← ask (SvcGetSyntacticDiagnostics fileFsPath) (getSyntacticDiagnostics service fileFsPath);
  semantic ← ask (SvcGetSemanticDiagnostics fileFsPath) (getSemanticDiagnostics service fileFsPath);
  let diagnostics := syntactic ++ semantic in
  mret (map (fun diag =>
    {| diag_range := convertRange scriptDoc
                       {| span_start := ts_start diag; span_length := ts_length diag |};
       severity := SeverityError;
       message := flattenDiagnosticMessageText (messageText diag) (String LF "") |})
    diagnostics).

Definition sentinel : string := "__vueEditorBridge".

Definition completionItem (doc scriptDoc : TextDocument) (position : Position) (offset : Z)
    (entry : CompletionEntry) : CompletionItem :=
  let range := convertRange scriptDoc <$> replacementSpan entry in
  {| item_uri := Some (uri doc);
     item_position := Some position;
     label := entry_name entry;
     sortText := Some (entry_sortText entry);
     item_kind := Some (convertKind (entry_kind entry));
     textEdit := (fun r => {| te_range := r; newText := entry_name entry |}) <$> range;
     data := Some {| data_languageId := languageId doc; data_uri := uri doc;
                     data_offset := offset |};
     detail := None;
     documentation := None |}.

Definition doComplete (doc : TextDocument) (position : Position) : M CompletionList :=
  '(scriptDoc, service) ← refresh doc;
  included ← languageServiceIncludesFile service (uri doc);
  if negb included then mret {| isIncomplete := false; items := [] |} else
  let fileFsPath := getFileFsPath (uri doc) in
  let offset := offsetAt scriptDoc position in
  completions ← ask (SvcGetCompletionsAtPosition fileFsPath offset)
                    (getCompletionsAtPosition service fileFsPath offset);
  match completions with
  | None => mret {| isIncomplete := false; items := [] |}
  | Some completions =>
      let entries :=
        filter (fun entry => entry_name entry ≠ sentinel) (entries completions) in
      mret {| isIncomplete := false;
              items := map (completionItem doc scriptDoc position offset) entries |}
  end.

Definition doResolve (doc : TextDocument) (item : CompletionItem) : M CompletionItem :=
  '(_, service) ← refresh doc;
  included ← languageServiceIncludesFile service (uri doc);
  if negb included then mret NULL_COMPLETION else
  let fileFsPath := getFileFsPath (uri doc) in
  payload ← lift (match data item with
                  | Some d => Ok d
                  | None => Throw (TypeError "Cannot read property 'offset' of undefined")
                  end);
  details ← ask (SvcGetCompletionEntryDetails fileFsPath (data_offset payload) (label item))
                (getCompletionEntryDetails service fileFsPath (data_offset payload) (label item));
  match details with
  | Some details =>
      mret {| item_uri := item_uri item;
              item_position := item_position item;
              label := label item;
              sortText := sortText item;
              item_kind := item_kind item;
              textEdit := textEdit item;
              data := None;
              detail := Some (displayPartsToString (details_displayParts details));
              documentation := Some (displayPartsToString (details_documentation details)) |}
  | None => mret item
  end.

Definition doHover (doc : TextDocument) (position : Position) : M Hover :=
  '(scriptDoc, service) ← refresh doc;
  included ← languageServiceIncludesFile service (uri doc);
  if negb included then mret {| hover_range := None; contents := [] |} else
  let fileFsPath := getFileFsPath (uri doc) in
  let offset := offsetAt scriptDoc position in
  info ← ask (SvcGetQuickInfoAtPosition fileFsPath offset)
             (getQuickInfoAtPosition service fileFsPath offset);
  match info with
  | Some info =>
      let display := displayPartsToString (info_displayParts info) in
      let docText := displayPartsToString (info_documentation info) in
      let markedContents := [MarkedCode "ts" display] in
      let markedContents :=
        if negb (String.eqb docText "")
        then [MarkedText docText; MarkedText (String LF "")] ++ markedContents
        else markedContents in
      mret {| hover_range := Some (convertRange scriptDoc (info_textSpan info));
              contents := markedContents |}
  | None => mret {| hover_range := None; contents := [] |}
  end.

(** The body of [item.parameters.forEach((p, i, a) => ...)]. *)
Definition addParameter (item : SignatureHelpItem) (signature : SignatureInformation)
    (ip : nat * SignatureHelpParameter) : SignatureInformation :=
  let '(i, p) := ip in
  let lbl := displayPartsToString (shp_displayParts p) in
  let parameter :=
    {| param_label := lbl;
       param_documentation := displayPartsToString (shp_documentation p) |} in
  let withParameter := (sig_label signature +:+ lbl)%string in
  {| sig_label :=
       if Z.of_nat i <? Z.of_nat (length (shi_parameters item)) - 1
       then withParameter +:+ displayPartsToString (separatorDisplayParts item)
       else withParameter;
     sig_documentation := sig_documentation signature;
     parameters := parameters signature ++ [parameter] |}.

(** The body of [signHelp.items.forEach(item => ...)]. *)
Definition signatureOf (item : SignatureHelpItem) : SignatureInformation :=
  let signature :=
    {| sig_label := "" +:+ displayPartsToString (prefixDisplayParts item);
       sig_documentation := None;
       parameters := [] |} in
  let signature := foldl (addParameter item) signature (imap pair (shi_parameters item)) in
  {| sig_label := sig_label signature +:+ displayPartsToString (suffixDisplayParts item);
     sig_documentation := sig_documentation signature;
     parameters := parameters signature |}.

Definition doSignatureHelp (doc : TextDocument) (position : Position) : M SignatureHelp :=
  '(scriptDoc, service) ← refresh doc;
  included ← languageServiceIncludesFile service (uri doc);
  if negb included then mret NULL_SIGNATURE else
  let fileFsPath := getFileFsPath (uri doc) in
  let offset := offsetAt scriptDoc position in
  signHelp ← ask (SvcGetSignatureHelpItems fileFsPath offset)
                 (getSignatureHelpItems service fileFsPath offset);
  match signHelp with
  | None => mret NULL_SIGNATURE
  | Some signHelp =>
      mret {| activeSignature := selectedItemIndex signHelp;
              activeParameter := argumentIndex signHelp;
              signatures :=
                foldl (fun sigs item => sigs ++ [signatureOf item]) [] (sh_items signHelp) |}
  end.

Definition findDocumentHighlight (doc : TextDocument) (position : Position)
  : M (list DocumentHighlight) :=
  '(scriptDoc, service) ← refresh doc;
  included ← languageServiceIncludesFile service (uri doc);
  if negb included then mret [] else
  let fileFsPath := getFileFsPath (uri doc) in
  let offset := offsetAt scriptDoc position in
  occurrences ← ask (SvcGetOccurrencesAtPosition fileFsPath offset)
                    (getOccurrencesAtPosition service fileFsPath offset);
  match occurrences with
  | Some occurrences =>
      mret (map (fun entry =>
        {| hl_range := convertRange scriptDoc (ref_textSpan entry);
           hl_kind := if isWriteAccess entry then HighlightWrite else HighlightText |})
        occurrences)
  | None => mret []
  end.

(** *** The outline builder

    [result] and [existing] are the two locals of [findDocumentSymbols] that
    the closure [collectSymbols] mutates. *)
Record Outline := {
  result_ : list SymbolInformation;
  existing : gmap string bool
}.

Definition emptyOutline : Outline := {| result_ := []; existing := ∅ |}.

(** [item.text + item.kind + item.spans[0].start]; the number is appended in
    decimal. *)
Definition signature_key (item : NavigationBarItem) : string :=
  ((nav_text item +:+ nav_kind item) +:+ pretty (span_start (nav_span0 item)))%string.

(** [existing[sig]], as a condition.  A signature ends in the digits of the
    span's start, so it never names a property [existing] inherits. *)
Definition seen (o : Outline) (sig : string) : bool :=
  default false (existing o !! sig).

Definition symbolOf (doc scriptDoc : TextDocument) (item : NavigationBarItem)
    (containerLabel : option string) : SymbolInformation :=
  {| name := nav_text item;
     kind := convertSymbolKind (nav_kind item);
     location := {| loc_uri := uri doc;
                    loc_range := convertRange scriptDoc (nav_span0 item) |};
     containerName := containerLabel |}.

(** The guard of the first [if] of [collectSymbols]. *)
Definition emits (item : NavigationBarItem) (o : Outline) : bool :=
  negb (String.eqb (nav_kind item) "script") && negb (seen o (signature_key item)).

Fixpoint collectSymbols (doc scriptDoc : TextDocument) (item : NavigationBarItem)
    (containerLabel : option string) (o : Outline) : Outline :=
  match item with
  | mkNavigationBarItem _ _ _ _ childItems =>
      let sig := signature_key item in
      let '(containerLabel, o) :=
        if emits item o then
          let symbol := symbolOf doc scriptDoc item containerLabel in
          (Some (nav_text item),
           {| result_ := result_ o ++ [symbol];
              existing := <[sig := true]> (existing o) |})
        else (containerLabel, o) in
      match childItems with
      | Some children =>
          fold_left (fun o child => collectSymbols doc scriptDoc child containerLabel o)
                    children o
      | None => o
      end
  end.

(** [items.forEach(item => collectSymbols(item))], for any starting label. *)
Definition collectAll (doc scriptDoc : TextDocument) (items : list NavigationBarItem)
    (containerLabel : option string) (o : Outline) : Outline :=
  fold_left (fun o item => collectSymbols doc scriptDoc item containerLabel o) items o.

(** The outline once [item] has been pushed under [containerLabel] and its
    signature marked: the state in which its children are visited. *)
Definition emitted (doc scriptDoc : TextDocument) (item : NavigationBarItem)
    (containerLabel : option string) (o : Outline) : Outline :=
  {| result_ := result_ o ++ [symbolOf doc scriptDoc item containerLabel];
     existing := <[signature_key item := true]> (existing o) |}.

Definition findDocumentSymbols (doc : TextDocument) : M (list SymbolInformation) :=
  '(scriptDoc, service) ← refresh doc;
  included ← languageServiceIncludesFile service (uri doc);
  if negb included then mret [] else
  let fileFsPath := getFileFsPath (uri doc) in
  items ← ask (SvcGetNavigationBarItems fileFsPath) (getNavigationBarItems service fileFsPath);
  match items with
  | Some items => mret (result_ (collectAll doc scriptDoc items None emptyOutline))
  | None => mret []
  end.

Definition findDefinition (doc : TextDocument) (position : Position) : M (list Location) :=
  '(scriptDoc, service) ← refresh doc;
  included ← languageServiceIncludesFile service (uri doc);
  if negb included then mret [] else
  let fileFsPath := getFileFsPath (uri doc) in
  let offset := offsetAt scriptDoc position in
  definitions ← ask (SvcGetDefinitionAtPosition fileFsPath offset)
                    (getDefinitionAtPosition service fileFsPath offset);
  match definitions with
  | None => mret []
  | Some definitions =>
      h ← getHost;
      mret (foldl (fun definitionResults d =>
              match getScriptDocByFsPath h fileFsPath with
              | Some definitionTargetDoc =>
                  definitionResults ++
                  [{| loc_uri := uriFile (def_fileName d);
                      loc_range := convertRange definitionTargetDoc (def_textSpan d) |}]
              | None => definitionResults
              end) [] definitions)
  end.

Definition findReferences (doc : TextDocument) (position : Position) : M (list Location) :=
  '(scriptDoc, service) ← refresh doc;
  included ← languageServiceIncludesFile service (uri doc);
  if negb included then mret [] else
  let fileFsPath := getFileFsPath (uri doc) in
  let offset := offsetAt scriptDoc position in
  references ← ask (SvcGetReferencesAtPosition fileFsPath offset)
                   (getReferencesAtPosition service fileFsPath offset);
  match references with
  | None => mret []
  | Some references =>
      h ← getHost;
      mret (foldl (fun referenceResults r =>
              match getScriptDocByFsPath h fileFsPath with
              | Some referenceTargetDoc =>
                  referenceResults ++
                  [{| loc_uri := uriFile (ref_fileName r);
                      loc_range := convertRange referenceTargetDoc (ref_textSpan r) |}]
              | None => referenceResults
              end) [] references)
  end.

(** [c.vetur.format.js]. *)
Definition vetur_format_js (c : jsval) : result jsval :=
  match get_prop c "vetur" with
  | Ok vetur =>
      match get_prop vetur "format" with
      | Ok fmt => get_prop fmt "js"
      | Throw e => Throw e
      end
  | Throw e => Throw e
  end.

(** [config.vetur.format.js]. *)
Definition config_vetur_format_js : M jsval :=
  c ← getConfig;
  lift (vetur_format_js c).

Definition After : string := "InsertSpaceAfterFunctionKeywordForAnonymousFunctions".
Definition Before : string := "InsertSpaceBeforeFunctionParenthesis".

(** [c.vetur.format.js.InsertSpaceBeforeFunctionParenthesis], the right-hand
    side of the assignment on line 284. *)
Definition vetur_format_js_Before (c : jsval) : result jsval :=
  match vetur_format_js c with
  | Ok js => get_prop js Before
  | Throw e => Throw e
  end.

(** The settings object [format] hands to the engine. *)
Definition formatSettingsOf (formatParams : FormattingOptions) : M (gmap string jsval) :=
  let initialIndentLevel := if truthy (scriptInitialIndent formatParams) then 1 else 0 in
  js ← config_vetur_format_js;
  let formatSettings := convertOptions formatParams js initialIndentLevel in
  js' ← config_vetur_format_js;
  v ← lift (get_prop js' Before);
  mret (<[After := v]> formatSettings).

(** The test of the loop body of [format]. *)
Definition within (start end_ : Z) (edit : TextChange) : bool :=
  (span_start (change_span edit) >=? start) &&
  (span_start (change_span edit) + span_length (change_span edit) <=? end_).

Definition format (doc : TextDocument) (range : Range) (formatParams : FormattingOptions)
  : M (list TextEdit) :=
  formatSettings ← formatSettingsOf formatParams;
  '(scriptDoc, service) ← refresh doc;
  let fileFsPath := getFileFsPath (uri doc) in
  let start := offsetAt scriptDoc (range_start range) in
  let end_ := offsetAt scriptDoc (range_end range) in
  edits ← ask (SvcGetFormattingEditsForRange fileFsPath start end_ formatSettings)
              (getFormattingEditsForRange service fileFsPath start end_ formatSettings);
  match edits with
  | Some edits =>
      mret (foldl (fun result edit =>
              if within start end_ edit then
                result ++ [{| te_range := convertRange scriptDoc (change_span edit);
                              newText := change_newText edit |}]
              else result) [] edits)
  | None => mret []
  end.

Definition findComponents (doc : TextDocument) : M (list ComponentInfo) :=
  '(_, service) ← refresh doc;
  let fileFsPath := getFileFsPath (uri doc) in
  ask (SvcFindComponents fileFsPath) (ext_findComponents service fileFsPath).

Definition onDocumentRemoved (document : TextDocument) : M unit :=
  record (CacheOnDocumentRemoved (uri document)).

Definition dispose (_ : unit) : M unit :=
  record SvcDispose;; record CacheDispose.

(** What a call of [getJavascriptMode] yields: the mode, what was
    constructed for it, and the closure state it starts from (none for the
    fallback, which closes over nothing). *)
Record ModeInstance := {
  mode : ScriptMode;
  created : list Creation;
  initial : option ModeState
}.

Definition javascriptMode : ScriptMode :=
  {| sm_base :=
       {| lm_getId := getId;
          lm_configure := Some configure;
          lm_doValidation := Some doValidation;
          lm_doComplete := Some doComplete;
          lm_doResolve := Some doResolve;
          lm_doHover := Some doHover;
          lm_doSignatureHelp := Some doSignatureHelp;
          lm_findDocumentHighlight := Some findDocumentHighlight;
          lm_findDocumentSymbols := Some findDocumentSymbols;
          lm_findDefinition := Some findDefinition;
          lm_findReferences := Some findReferences;
          lm_format := Some format;
          lm_onDocumentRemoved := onDocumentRemoved;
          lm_dispose := dispose |};
     sm_findComponents := findComponents |}.

Definition getJavascriptMode (documentRegions : RegionsCache) (workspacePath : WorkspacePath)
  : ModeInstance :=
  if wp_falsy workspacePath then
    {| mode := {| sm_base := nullMode; sm_findComponents := fun _ => mret [] |};
       created := [];
       initial := None |}
  else
    let path := match workspacePath with wp_string s => s | _ => "" end in
    let jsDocuments :=
      getLanguageModelCache 10 60 (fun document =>
        let vueDocument := regions_get documentRegions document in
        getEmbeddedDocumentByType vueDocument "script") in
    let serviceHost := getServiceHost path jsDocuments in
    {| mode := javascriptMode;
       created := [NewLanguageModelCache 10 60; NewServiceHost path];
       initial := Some {| config := JObj ∅; host := serviceHost; trace := [] |} |}.

(** *** Vocabulary for the statements

    What [updateCurrentTextDocument] hands back for [doc] in state [st],
    whether the guard lets [doc] through, and the state an operation leaves
    behind once it has made the calls [calls] after the refresh. *)
Definition scriptDocOf (doc : TextDocument) (st : ModeState) : TextDocument :=
  (updateCurrentTextDocument (host st) doc).1.1.

Definition serviceOf (doc : TextDocument) (st : ModeState) : LanguageService :=
  (updateCurrentTextDocument (host st) doc).1.2.

Definition hostAfter (doc : TextDocument) (st : ModeState) : HostState :=
  (updateCurrentTextDocument (host st) doc).2.

Definition inProgram (doc : TextDocument) (st : ModeState) : Prop :=
  getFilePath (uri doc) ∈ getRootFileNames (serviceOf doc st).

Definition after (doc : TextDocument) (st : ModeState) (calls : list Event) : ModeState :=
  {| config := config st;
     host := hostAfter doc st;
     trace := trace st ++ HostUpdateCurrentTextDocument (uri doc) :: calls |}.

(** The text edit [format] pushes for an engine edit. *)
Definition textEditOf (scriptDoc : TextDocument) (edit : TextChange) : TextEdit :=
  {| te_range := convertRange scriptDoc (change_span edit);
     newText := change_newText edit |}.

(** The location [findDefinition] and [findReferences] push for a target. *)
Definition locationOf (targetDoc : TextDocument) (fileName : string) (span : TextSpan)
  : Location :=
  {| loc_uri := uriFile fileName; loc_range := convertRange targetDoc span |}.

(** [item] after a successful [doResolve]. *)
Definition resolvedItem (item : CompletionItem) (details : CompletionEntryDetails)
  : CompletionItem :=
  {| item_uri := item_uri item;
     item_position := item_position item;
     label := label item;
     sortText := sortText item;
     item_kind := item_kind item;
     textEdit := textEdit item;
     data := None;
     detail := Some (displayPartsToString (details_displayParts details));
     documentation := Some (displayPartsToString (details_documentation details)) |}.

End Mode.

(** ** A small workspace on which the mode can be run

    One host document, [/a.vue], whose script region is two lines long, a
    language service that answers with fixed lists, and a service host that
    keeps the script documents by path. *)
Definition fxTypes : ExtTypes :=
  {| HostState := list (string * TextDocument);
     ComponentInfo := string;
     MessageText := string;
     VueDocumentRegions := TextDocument;
     RegionsCache := unit;
     DocumentCache := unit |}.

Definition fxDoc : TextDocument :=
  {| uri := "/a.vue"; languageId := "vue"; version := 1;
     getText := "let x = 1" +:+ String LF "foo(x)" |}.

Definition fxOther : TextDocument :=
  {| uri := "/b.vue"; languageId := "vue"; version := 1; getText := "export default {}" |}.

Definition fxEntries : list CompletionEntry :=
  [ {| entry_name := "x"; entry_kind := "var"; entry_sortText := "0";
       replacementSpan := None |};
    {| entry_name := "__vueEditorBridge"; entry_kind := "function"; entry_sortText := "0";
       replacementSpan := None |};
    {| entry_name := "foo"; entry_kind := "function"; entry_sortText := "1";
       replacementSpan := Some {| span_start := 10; span_length := 3 |} |} ].

Definition fxEdits (start end_ : Z) : list TextChange :=
  [ {| change_span := {| span_start := start; span_length := end_ - start |};
       change_newText := "let x = 1;" |};
    {| change_span := {| span_start := start; span_length := end_ - start + 1 |};
       change_newText := "wide" |} ].

(** Two sibling declarations of [f] at offset 0, each with one child. *)
Definition fxLeaf (text : string) (start : Z) : NavigationBarItem :=
  mkNavigationBarItem text "var" {| span_start := start; span_length := 1 |} [] None.

Definition fxTwins : list NavigationBarItem :=
  [ mkNavigationBarItem "f" "function" {| span_start := 0; span_length := 3 |} []
                        (Some [fxLeaf "x" 4]);
    mkNavigationBarItem "f" "function" {| span_start := 0; span_length := 3 |} []
                        (Some [fxLeaf "y" 6]) ].


Definition fxService : @LanguageService fxTypes :=
  {| getRootFileNames := ["/a.vue"];
     getSyntacticDiagnostics := fun _ => [];
     getSemanticDiagnostics := fun _ =>
       [ @Build_TsDiagnostic fxTypes 10 3 "Cannot find name 'foo'." ];
     getCompletionsAtPosition := fun _ _ => Some {| entries := fxEntries |};
     getCompletionEntryDetails := fun _ _ entryName =>
       if String.eqb entryName "x"
       then Some {| details_displayParts := [ {| part_text := "let x: number";
                                                 part_kind := "text" |} ];
                    details_documentation := [] |}
       else None;
     getQuickInfoAtPosition := fun _ _ => None;
     getSignatureHelpItems := fun _ _ => None;
     getOccurrencesAtPosition := fun _ _ => None;
     getNavigationBarItems := fun _ => Some fxTwins;
     getDefinitionAtPosition := fun _ _ =>
       Some [ {| def_fileName := "/b.vue";
                 def_textSpan := {| span_start := 15; span_length := 2 |} |} ];
     getReferencesAtPosition := fun _ _ =>
       Some [ {| ref_textSpan := {| span_start := 15; span_length := 2 |};
                 ref_fileName := "/b.vue"; isWriteAccess := false |} ];
     getFormattingEditsForRange := fun _ start end_ _ => Some (fxEdits start end_) |}.

Definition fxNullCompletion : CompletionItem :=
  {| item_uri := None; item_position := None; label := ""; sortText := None;
     item_kind := None; textEdit := None; data := None; detail := None;
     documentation := None |}.

Definition fxNullSignature : SignatureHelp :=
  {| activeSignature := 0; activeParameter := 0; signatures := [] |}.

Definition fxNullMode : @LanguageMode fxTypes :=
  {| lm_getId := fun _ => "";
     lm_configure := None;
     lm_doValidation := None;
     lm_doComplete := None;
     lm_doResolve := None;
     lm_doHover := None;
     lm_doSignatureHelp := None;
     lm_findDocumentHighlight := None;
     lm_findDocumentSymbols := None;
     lm_findDefinition := None;
     lm_findReferences := None;
     lm_format := None;
     lm_onDocumentRemoved := fun _ => mret tt;
     lm_dispose := fun _ => mret tt |}.

Definition fxExternals : @Externals fxTypes :=
  {| getFileFsPath := fun documentUri => documentUri;
     getFilePath := fun documentUri => documentUri;
     uriFile := fun fileName => ("file://" +:+ fileName)%string;
     displayPartsToString := fun parts => String.concat "" (map part_text parts);
     flattenDiagnosticMessageText := fun (messageText : @MessageText fxTypes) _ => messageText;
     NULL_SIGNATURE := fxNullSignature;
     NULL_COMPLETION := fxNullCompletion;
     nullMode := fxNullMode;
     updateCurrentTextDocument := fun (h : @HostState fxTypes) doc =>
       (doc, fxService, (uri doc, doc) :: h);
     getScriptDocByFsPath := fun (h : @HostState fxTypes) fileFsPath =>
       snd <$> find (fun entry => String.eqb (fst entry) fileFsPath) h;
     ext_findComponents := fun _ _ => [];
     regions_get := fun _ document => document;
     getEmbeddedDocumentByType := fun (regions : @VueDocumentRegions fxTypes) _ => regions;
     getLanguageModelCache := fun _ _ _ => tt;
     getServiceHost := fun _ _ => [] |}.

(** The configuration a client sends when it sets nothing under
    [vetur.format.js]: [{ vetur: { format: { js: {} } } }]. *)
Definition fxBareConfig : jsval :=
  JObj {[ "vetur" := JObj {[ "format" := JObj {[ "js" := JObj ∅ ]} ]} ]}.

(** [{ vetur: { format: { js: { InsertSpaceBeforeFunctionParenthesis: false } } } }]. *)
Definition fxConfig : jsval :=
  JObj {[ "vetur" := JObj {[ "format" := JObj {[ "js" :=
    JObj {[ "InsertSpaceBeforeFunctionParenthesis" := JBool false ]} ]} ]} ]}.

Definition fxState (c : jsval) : @ModeState fxTypes :=
  @Build_ModeState fxTypes c [] [].

Definition fxOptions : FormattingOptions :=
  {| tabSize := 2; insertSpaces := true; scriptInitialIndent := JUndefined |}.

(** The first line of the fixture, and a position on its second line. *)
Definition fxRange : Range :=
  {| range_start := {| line := 0; character := 0 |};
     range_end := {| line := 0; character := 9 |} |}.

Definition fxPosition : Position := {| line := 1; character := 2 |}.

(** An item as [doComplete] returns it for the entry [entryName]. *)
Definition fxItem (entryName : string) : CompletionItem :=
  {| item_uri := Some "/a.vue"; item_position := Some fxPosition; label := entryName;
     sortText := Some "0"; item_kind := Some CIK_Variable; textEdit := None;
     data := Some {| data_languageId := "vue"; data_uri := "/a.vue"; data_offset := 12 |};
     detail := None; documentation := None |}.

(** The two switch tables, as lists of cases. *)
Definition completionKindTable : list (string * CompletionItemKind) :=
  [ ("primitive type", CIK_Keyword); ("keyword", CIK_Keyword);
    ("var", CIK_Variable); ("local var", CIK_Variable);
    ("property", CIK_Field); ("getter", CIK_Field); ("setter", CIK_Field);
    ("function", CIK_Function); ("method", CIK_Function); ("construct", CIK_Function);
    ("call", CIK_Function); ("index", CIK_Function);
    ("enum", CIK_Enum); ("module", CIK_Module); ("class", CIK_Class);
    ("interface", CIK_Interface); ("warning", CIK_File) ].

Definition symbolKindTable : list (string * SymbolKind) :=
  [ ("var", SK_Variable); ("local var", SK_Variable); ("const", SK_Variable);
    ("function", SK_Function); ("local function", SK_Function);
    ("enum", SK_Enum); ("module", SK_Module); ("class", SK_Class);
    ("interface", SK_Interface); ("method", SK_Method);
    ("property", SK_Property); ("getter", SK_Property); ("setter", SK_Property) ].

(** ** Vocabulary for the rest of the operations *)

(** All the items of a tree, the parent before its children, siblings in the
    order the engine reports them. *)
Fixpoint flattenItem (item : NavigationBarItem) : list NavigationBarItem :=
  match item with
  | mkNavigationBarItem _ _ _ _ childItems =>
      item :: match childItems with
              | Some l => flat_map flattenItem l
              | None => []
              end
  end.

Definition flattenItems (items : list NavigationBarItem) : list NavigationBarItem :=
  flat_map flattenItem items.

(** The signatures of the items of a forest that are not of kind 'script'. *)
Definition nonScriptSignatures (items : list NavigationBarItem) : gset string :=
  list_to_set
    (signature_key <$> filter (fun item => nav_kind item ≠ "script") (flattenItems items)).

(** Every key of [existing] was written by [existing[sig] = true]. *)
Definition marksAreTrue (o : Outline) : Prop :=
  forall sig mark, existing o !! sig = Some mark -> mark = true.

(** What a visit of [items] adds to an outline: the marks stay [true], the
    signatures of the visited items that are not 'script' are marked, and
    the symbols pushed come after those already there, one per signature
    newly marked, named after visited items in the order of [flattenItems],
    and located in the requesting document. *)
Definition extends (doc : TextDocument) (items : list NavigationBarItem) (o o' : Outline)
  : Prop :=
  marksAreTrue o' /\
  dom (existing o') = dom (existing o) ∪ nonScriptSignatures items /\
  exists new,
    result_ o' = result_ o ++ new /\
    (length new + size (dom (existing o)) = size (dom (existing o')))%nat /\
    map name new `sublist_of` map nav_text (flattenItems items) /\
    Forall (fun symbol => loc_uri (location symbol) = uri doc) new.

(** [containerLabel] is absent or the name of a symbol of [symbols]. *)
Definition labelKnown (containerLabel : option string) (symbols : list SymbolInformation)
  : Prop :=
  containerLabel = None \/
  exists (j : nat) s, symbols !! j = Some s /\ containerLabel = Some (name s).

(** Every symbol's container is absent or named by a symbol that comes
    earlier in the list. *)
Definition containersPrecede (symbols : list SymbolInformation) : Prop :=
  forall (i : nat) s,
    symbols !! i = Some s ->
    containerName s = None \/
    exists (j : nat) s', (j < i)%nat /\ symbols !! j = Some s' /\
                         containerName s = Some (name s').

Section MoreVocabulary.
Context {T : ExtTypes} {E : Externals}.

(** The diagnostic [doValidation] makes of one of the engine's. *)
Definition diagnosticOf (scriptDoc : TextDocument) (diag : TsDiagnostic) : Diagnostic :=
  {| diag_range := convertRange scriptDoc
                     {| span_start := ts_start diag; span_length := ts_length diag |};
     severity := SeverityError;
     message := flattenDiagnosticMessageText (messageText diag) (String LF "") |}.

(** The highlight [findDocumentHighlight] makes of an occurrence. *)
Definition highlightOf (scriptDoc : TextDocument) (entry : ReferenceEntry)
  : DocumentHighlight :=
  {| hl_range := convertRange scriptDoc (ref_textSpan entry);
     hl_kind := if isWriteAccess entry then HighlightWrite else HighlightText |}.

(** The parameter [doSignatureHelp] makes of one of the engine's. *)
Definition parameterOf (p : SignatureHelpParameter) : ParameterInformation :=
  {| param_label := displayPartsToString (shp_displayParts p);
     param_documentation := displayPartsToString (shp_documentation p) |}.

End MoreVocabulary.

(** A second service for the fixture, with something to say at every
    position: a quick info with documentation, one signature of two
    parameters, two occurrences, a diagnostic of each sort and a navigation
    tree under a 'script' root. *)
Definition fxParts (text : string) : list SymbolDisplayPart :=
  [ {| part_text := text; part_kind := "text" |} ].

Definition fxSignature : SignatureHelpItem :=
  {| prefixDisplayParts := fxParts "foo(";
     suffixDisplayParts := fxParts "): void";
     separatorDisplayParts := fxParts ", ";
     shi_parameters :=
       [ {| shp_displayParts := fxParts "a: number"; shp_documentation := fxParts "first" |};
         {| shp_displayParts := fxParts "b: string"; shp_documentation := [] |} ] |}.

Definition fxTree : list NavigationBarItem :=
  [ mkNavigationBarItem "<global>" "script" {| span_start := 0; span_length := 16 |} []
      (Some [ mkNavigationBarItem "foo" "function" {| span_start := 10; span_length := 3 |} []
                (Some [fxLeaf "x" 4]);
              mkNavigationBarItem "foo" "function" {| span_start := 10; span_length := 3 |} []
                None;
              fxLeaf "x" 4 ]) ].

Definition fxRichService : @LanguageService fxTypes :=
  {| getRootFileNames := ["/a.vue"];
     getSyntacticDiagnostics := fun _ =>
       [ @Build_TsDiagnostic fxTypes 9 1 "';' expected." ];
     getSemanticDiagnostics := fun _ =>
       [ @Build_TsDiagnostic fxTypes 10 3 "Cannot find name 'foo'." ];
     getCompletionsAtPosition := fun _ _ => Some {| entries := fxEntries |};
     getCompletionEntryDetails := fun _ _ _ => None;
     getQuickInfoAtPosition := fun _ _ =>
       Some {| info_textSpan := {| span_start := 4; span_length := 1 |};
               info_displayParts := fxParts "let x: number";
               info_documentation := fxParts "the answer" |};
     getSignatureHelpItems := fun _ _ =>
       Some {| sh_items := [fxSignature]; selectedItemIndex := 0; argumentIndex := 1 |};
     getOccurrencesAtPosition := fun _ _ =>
       Some [ {| ref_textSpan := {| span_start := 4; span_length := 1 |};
                 ref_fileName := "/a.vue"; isWriteAccess := true |};
              {| ref_textSpan := {| span_start := 14; span_length := 1 |};
                 ref_fileName := "/a.vue"; isWriteAccess := false |} ];
     getNavigationBarItems := fun _ => Some fxTree;
     getDefinitionAtPosition := fun _ _ => None;
     getReferencesAtPosition := fun _ _ => None;
     getFormattingEditsForRange := fun _ _ _ _ => None |}.

Definition fxRichExternals : @Externals fxTypes :=
  {| getFileFsPath := fun documentUri => documentUri;
     getFilePath := fun documentUri => documentUri;
     uriFile := fun fileName => ("file://" +:+ fileName)%string;
     displayPartsToString := fun parts => String.concat "" (map part_text parts);
     flattenDiagnosticMessageText := fun (messageText : @MessageText fxTypes) _ => messageText;
     NULL_SIGNATURE := fxNullSignature;
     NULL_COMPLETION := fxNullCompletion;
     nullMode := fxNullMode;
     updateCurrentTextDocument := fun (h : @HostState fxTypes) doc =>
       (doc, fxRichService, (uri doc, doc) :: h);
     getScriptDocByFsPath := fun (h : @HostState fxTypes) fileFsPath =>
       snd <$> find (fun entry => String.eqb (fst entry) fileFsPath) h;
     ext_findComponents := fun _ _ => [];
     regions_get := fun _ document => document;
     getEmbeddedDocumentByType := fun (regions : @VueDocumentRegions fxTypes) _ => regions;
     getLanguageModelCache := fun _ _ _ => tt;
     getServiceHost := fun _ _ => [] |}.

(** * Properties *)

(** ** The span/range translator *)

Lemma locate_offsetIn (later before : list Z) (lineStart ln offset len : Z) :
  ln = Z.of_nat (length before) ->
  lineStart <= offset <= len ->
  offsetIn (before ++ lineStart :: later) len (locate ln lineStart later offset) = offset.
Proof.
  revert before lineStart ln.
  induction later as [|next later IH]; intros before lineStart ln Hln Hoff.
  - cbn [locate]. unfold offsetIn. cbn [line character].
    rewrite length_app. cbn [length].
    destruct (Z.geb_spec ln (Z.of_nat (length before + 1))) as [Hge|_]; [lia|].
    destruct (Z.ltb_spec ln 0) as [Hlt|_]; [lia|].
    replace (Z.to_nat ln) with (length before + 0)%nat by lia.
    replace (Z.to_nat (ln + 1)) with (length before + 1)%nat by lia.
    rewrite !lookup_app_r by lia.
    replace (length before + 0 - length before)%nat with 0%nat by lia.
    replace (length before + 1 - length before)%nat with 1%nat by lia.
    cbn. lia.
  - cbn [locate].
    destruct (Z.gtb_spec next offset) as [Hgt|Hle].
    + unfold offsetIn. cbn [line character].
      rewrite length_app. cbn [length].
      destruct (Z.geb_spec ln (Z.of_nat (length before + S (S (length later))))) as [Hge|_];
        [lia|].
      destruct (Z.ltb_spec ln 0) as [Hlt|_]; [lia|].
      replace (Z.to_nat ln) with (length before + 0)%nat by lia.
      replace (Z.to_nat (ln + 1)) with (length before + 1)%nat by lia.
      rewrite !lookup_app_r by lia.
      replace (length before + 0 - length before)%nat with 0%nat by lia.
      replace (length before + 1 - length before)%nat with 1%nat by lia.
      cbn. lia.
    + replace (before ++ lineStart :: next :: later)
        with ((before ++ [lineStart]) ++ next :: later) by (by rewrite <- app_assoc).
      apply IH.
      * rewrite length_app. cbn [length]. lia.
      * lia.
Qed.

Lemma getLineOffsets_cases (document : TextDocument) :
  (getLineOffsets document = [] /\ content_length document = 0) \/
  (exists later, getLineOffsets document = 0 :: later).
Proof.
  unfold getLineOffsets, content_length.
  destruct (getText document) as [|c rest].
  - left. split; reflexivity.
  - right. eexists. reflexivity.
Qed.

Lemma offsetAt_positionAt (document : TextDocument) (offset : Z) :
  0 <= offset <= content_length document ->
  offsetAt document (positionAt document offset) = offset.
Proof.
  intros Hoff. unfold offsetAt, positionAt.
  replace (Z.max (Z.min offset (content_length document)) 0) with offset by lia.
  destruct (getLineOffsets_cases document) as [[-> Hlen]|[later ->]].
  - rewrite Hlen in *. replace offset with 0 by lia. reflexivity.
  - apply (locate_offsetIn later [] 0 0 offset); [reflexivity | lia].
Qed.

(** C8.  For a span (start, length) that lies inside the document's
    content -- [0 <= start], a length that is not negative, and
    [start + length] at most the content length -- the offsets of the start
    and the end of [convertRange document span] are exactly
    [(start, start + length)]. *)
Theorem convertRange_roundtrip (document : TextDocument) (span : TextSpan) :
  0 <= span_start span ->
  0 <= span_length span ->
  span_start span + span_length span <= content_length document ->
  (offsetAt document (range_start (convertRange document span)),
   offsetAt document (range_end (convertRange document span)))
  = (span_start span, span_start span + span_length span).
Proof.
  intros Hstart Hlen Hend. unfold convertRange. cbn [range_start range_end].
  rewrite !offsetAt_positionAt by lia. reflexivity.
Qed.

(** The span 8..13 of the two-line fixture straddles its line break. *)
Lemma convertRange_roundtrip_witness :
  convertRange fxDoc {| span_start := 8; span_length := 5 |}
  = {| range_start := {| line := 0; character := 8 |};
       range_end := {| line := 1; character := 3 |} |} /\
  (offsetAt fxDoc (range_start (convertRange fxDoc {| span_start := 8; span_length := 5 |})),
   offsetAt fxDoc (range_end (convertRange fxDoc {| span_start := 8; span_length := 5 |})))
  = (8, 13).
Proof.
  split; [reflexivity|].
  apply (convertRange_roundtrip fxDoc {| span_start := 8; span_length := 5 |});
    vm_compute; congruence.
Defined.

(** ** The classifiers *)

Ltac not_a_case H :=
  repeat match goal with
  | |- context [String.eqb ?a ?b] =>
      destruct (String.eqb_spec a b) as [->|_];
      [ exfalso; apply H; cbn; set_solver | cbn ]
  end.

Lemma convertKind_default (k : string) :
  k ∉ completionKindTable.*1 -> convertKind k = CIK_Property.
Proof.
  intros H. unfold convertKind, str_in. cbn [existsb]. not_a_case H. reflexivity.
Qed.

Lemma convertSymbolKind_default (k : string) :
  k ∉ symbolKindTable.*1 -> convertSymbolKind k = SK_Variable.
Proof.
  intros H. unfold convertSymbolKind, str_in. cbn [existsb]. not_a_case H. reflexivity.
Qed.

(** C7.  Both classifiers are functions of the kind string alone and give a
    kind for every string: one that is not a case of the completion table
    gives [Property], one that is not a case of the symbol table gives
    [Variable], and every case gives the kind listed for it ('keyword' and
    'primitive type' give Keyword; 'property', 'getter' and 'setter' give
    Field for completions and Property for symbols; 'warning' gives File). *)
Theorem classifiers_total (k : string) :
  (k ∉ completionKindTable.*1 -> convertKind k = CIK_Property) /\
  (k ∉ symbolKindTable.*1 -> convertSymbolKind k = SK_Variable) /\
  Forall (fun entry => convertKind entry.1 = entry.2) completionKindTable /\
  Forall (fun entry => convertSymbolKind entry.1 = entry.2) symbolKindTable.
Proof.
  split; [apply convertKind_default|].
  split; [apply convertSymbolKind_default|].
  split; unfold completionKindTable, symbolKindTable;
    repeat (apply Forall_cons; split; [reflexivity|]); apply Forall_nil; exact I.
Qed.

(** 'alias' is a kind the engine reports and neither table lists. *)
Lemma classifiers_total_witness :
  convertKind "alias" = CIK_Property /\ convertSymbolKind "alias" = SK_Variable.
Proof.
  destruct (classifiers_total "alias") as (Hcompletion & Hsymbol & _).
  split; [apply Hcompletion | apply Hsymbol];
    apply (bool_decide_unpack _); vm_compute; exact I.
Defined.

(** ** The outline builder *)

Section Outline.
Variables doc scriptDoc : TextDocument.

(** Induction over a navigation tree: the property may be assumed of all
    children. *)
Lemma NavigationBarItem_tree_ind (P : NavigationBarItem -> Prop) :
  (forall item, Forall P (children item) -> P item) ->
  forall item, P item.
Proof.
  intros step.
  refine (fix rec (item : NavigationBarItem) : P item := _).
  apply step. destruct item as [t k s ms [l|]]; cbn; [|constructor].
  revert l. refine (fix each (l : list NavigationBarItem) : Forall P l := _).
  destruct l as [|child l]; constructor; [apply rec | apply each].
Qed.

Lemma collectSymbols_eq item containerLabel o :
  collectSymbols doc scriptDoc item containerLabel o
  = if emits item o
    then collectAll doc scriptDoc (children item) (Some (nav_text item))
           (emitted doc scriptDoc item containerLabel o)
    else collectAll doc scriptDoc (children item) containerLabel o.
Proof.
  destruct item as [t k s ms [l|]]; cbn [collectSymbols children nav_childItems default];
    unfold collectAll; destruct (emits _ o); reflexivity.
Qed.

Lemma collectAll_cons item items containerLabel o :
  collectAll doc scriptDoc (item :: items) containerLabel o
  = collectAll doc scriptDoc items containerLabel
      (collectSymbols doc scriptDoc item containerLabel o).
Proof. reflexivity. Qed.

Lemma collectAll_app items items' containerLabel o :
  collectAll doc scriptDoc (items ++ items') containerLabel o
  = collectAll doc scriptDoc items' containerLabel
      (collectAll doc scriptDoc items containerLabel o).
Proof. unfold collectAll. apply fold_left_app. Qed.

Lemma seen_emitted item containerLabel o sig :
  seen (emitted doc scriptDoc item containerLabel o) sig = true <->
  sig = signature_key item \/ seen o sig = true.
Proof.
  unfold seen, emitted. cbn [existing].
  destruct (decide (signature_key item = sig)) as [<-|Hne].
  - rewrite lookup_insert_eq. cbn. tauto.
  - rewrite lookup_insert_ne by done. split; [tauto|]. intros [->|H]; [done|exact H].
Qed.

(** A signature, once marked, stays marked. *)
Lemma seen_collectSymbols sig item :
  forall containerLabel o,
    seen o sig = true ->
    seen (collectSymbols doc scriptDoc item containerLabel o) sig = true.
Proof.
  induction item as [item IH] using NavigationBarItem_tree_ind.
  assert (Hall : forall containerLabel o,
             seen o sig = true ->
             seen (collectAll doc scriptDoc (children item) containerLabel o) sig = true).
  { induction IH as [|child l Hchild _ IHl]; intros containerLabel o Ho; [exact Ho|].
    rewrite collectAll_cons. apply IHl, Hchild, Ho. }
  intros containerLabel o Ho. rewrite collectSymbols_eq.
  destruct (emits item o); apply Hall; [|exact Ho].
  apply seen_emitted. by right.
Qed.

Lemma seen_collectAll sig items :
  forall containerLabel o,
    seen o sig = true ->
    seen (collectAll doc scriptDoc items containerLabel o) sig = true.
Proof.
  induction items as [|item items IH]; intros containerLabel o Ho; [exact Ho|].
  rewrite collectAll_cons. by apply IH, seen_collectSymbols.
Qed.

(** C2, in the form that holds of the code.  Let [a] and [b] be siblings
    (visited under the same [containerLabel], with any siblings [between]
    them) that have the same name, kind and first-span start, of a kind
    other than 'script' and with a signature not yet marked when [a] is
    visited.  Then exactly one symbol is pushed for the pair: [a] pushes
    its own ([emitted]) and [b] pushes none.  The children of both are
    visited; those of [a] under the label [nav_text a], those of [b] under
    the label the siblings themselves were visited with. *)
Theorem duplicate_sibling_emits_once (a b : NavigationBarItem)
    (between : list NavigationBarItem) (containerLabel : option string) (o : Outline) :
  nav_text a = nav_text b ->
  nav_kind a = nav_kind b ->
  span_start (nav_span0 a) = span_start (nav_span0 b) ->
  nav_kind a ≠ "script" ->
  seen o (signature_key a) = false ->
  let afterA := emitted doc scriptDoc a containerLabel o in
  let afterChildrenOfA :=
    collectAll doc scriptDoc (children a) (Some (nav_text a)) afterA in
  let beforeB := collectAll doc scriptDoc between containerLabel afterChildrenOfA in
  collectSymbols doc scriptDoc a containerLabel o = afterChildrenOfA /\
  collectSymbols doc scriptDoc b containerLabel beforeB
  = collectAll doc scriptDoc (children b) containerLabel beforeB /\
  collectAll doc scriptDoc (a :: between ++ [b]) containerLabel o
  = collectAll doc scriptDoc (children b) containerLabel beforeB.
Proof.
  intros Htext Hkind Hstart Hscript Hfresh afterA afterChildrenOfA beforeB.
  assert (Hkey : signature_key b = signature_key a).
  { unfold signature_key. by rewrite Htext, Hkind, Hstart. }
  assert (HemitA : emits a o = true).
  { unfold emits. rewrite Hfresh. by destruct (String.eqb_spec (nav_kind a) "script"). }
  assert (HemitB : emits b beforeB = false).
  { unfold emits. rewrite Hkey.
    replace (seen beforeB (signature_key a)) with true; [apply andb_false_r|].
    symmetry. apply seen_collectAll, seen_collectAll, seen_emitted. by left. }
  assert (Ha : collectSymbols doc scriptDoc a containerLabel o = afterChildrenOfA).
  { by rewrite collectSymbols_eq, HemitA. }
  assert (Hb : collectSymbols doc scriptDoc b containerLabel beforeB
               = collectAll doc scriptDoc (children b) containerLabel beforeB).
  { by rewrite collectSymbols_eq, HemitB. }
  split; [exact Ha|]. split; [exact Hb|].
  rewrite collectAll_cons, Ha, collectAll_app. fold beforeB.
  change (collectAll doc scriptDoc [b] containerLabel beforeB)
    with (collectSymbols doc scriptDoc b containerLabel beforeB).
  exact Hb.
Qed.

End Outline.

(** The twins of the fixture: one symbol for the two [f], then [x] and [y]. *)
Lemma duplicate_sibling_emits_once_witness :
  map name (result_ (collectAll fxDoc fxDoc fxTwins None emptyOutline)) = ["f"; "x"; "y"].
Proof.
  pose proof (duplicate_sibling_emits_once fxDoc fxDoc
    (mkNavigationBarItem "f" "function" {| span_start := 0; span_length := 3 |} []
       (Some [fxLeaf "x" 4]))
    (mkNavigationBarItem "f" "function" {| span_start := 0; span_length := 3 |} []
       (Some [fxLeaf "y" 6]))
    [] None emptyOutline eq_refl eq_refl eq_refl ltac:(discriminate) eq_refl)
    as (_ & _ & Hall).
  cbn zeta in Hall. unfold fxTwins.
  change (map name (result_ (collectAll fxDoc fxDoc
            (mkNavigationBarItem "f" "function" {| span_start := 0; span_length := 3 |} []
               (Some [fxLeaf "x" 4]) :: [] ++
             [mkNavigationBarItem "f" "function" {| span_start := 0; span_length := 3 |} []
               (Some [fxLeaf "y" 6])]) None emptyOutline)) = ["f"; "x"; "y"]).
  rewrite Hall. reflexivity.
Defined.

(** C2, as stated, fails on the twins: [x], the child of the first [f], is
    contained in "f", while [y], the child of the duplicate, has no
    container; no single container name fits both. *)
Lemma duplicate_sibling_children_containers_differ :
  exists symbols st',
    @findDocumentSymbols fxTypes fxExternals fxDoc (fxState JUndefined) = (Ok symbols, st') /\
    map (fun s => (name s, containerName s)) symbols
    = [("f", None); ("x", Some "f"); ("y", None)] /\
    ~ (exists c, forall s, s ∈ symbols -> name s ≠ "f" -> containerName s = c).
Proof.
  destruct (@findDocumentSymbols fxTypes fxExternals fxDoc (fxState JUndefined))
    as [outcome st'] eqn:Hrun.
  vm_compute in Hrun. injection Hrun as <- <-.
  eexists _, _. split; [reflexivity|]. split; [reflexivity|].
  intros [c Hc].
  match type of Hc with
  | forall s, s ∈ [_; ?x; ?y] -> _ =>
      pose proof (Hc x ltac:(set_solver) ltac:(discriminate)) as Hx;
      pose proof (Hc y ltac:(set_solver) ltac:(discriminate)) as Hy
  end.
  cbn in Hx, Hy. congruence.
Qed.

(** Two 'script' twins push no symbol at all. *)
Example script_twins_emit_nothing :
  result_ (collectAll fxDoc fxDoc
             [ mkNavigationBarItem "<global>" "script" {| span_start := 0; span_length := 16 |}
                                   [] None;
               mkNavigationBarItem "<global>" "script" {| span_start := 0; span_length := 16 |}
                                   [] None ]
             None emptyOutline) = [].
Proof. reflexivity. Qed.

(** ** The operations of the mode *)

Section Properties.
Context {T : ExtTypes} {E : Externals}.

(** ** Running an operation *)

Lemma foldl_push {A B} (keep : A -> bool) (f : A -> B) (l : list A) (acc : list B) :
  foldl (fun acc x => if keep x then acc ++ [f x] else acc) acc l
  = acc ++ map f (List.filter keep l).
Proof.
  revert acc. induction l as [|x l IH]; intros acc; cbn.
  - by rewrite app_nil_r.
  - rewrite IH. destruct (keep x); cbn; [by rewrite <- app_assoc | done].
Qed.

Lemma foldl_push_all {A B} (f : A -> B) (l : list A) (acc : list B) :
  foldl (fun acc x => acc ++ [f x]) acc l = acc ++ map f l.
Proof.
  revert acc. induction l as [|x l IH]; intros acc; cbn.
  - by rewrite app_nil_r.
  - rewrite IH. by rewrite <- app_assoc.
Qed.

Lemma foldl_skip {A B} (l : list A) (acc : B) : foldl (fun acc _ => acc) acc l = acc.
Proof. induction l; cbn; done. Qed.

Ltac run_op doc st :=
  unfold refresh, languageServiceIncludesFile, ask, record, getHost, getConfig, lift,
    mbind, M_bind, mret, M_ret;
  unfold inProgram, after, scriptDocOf, serviceOf, hostAfter;
  cbn;
  destruct (updateCurrentTextDocument (host st) doc) as [[scriptDoc service] host'];
  cbn.

Ltac guard_out H := rewrite (bool_decide_eq_false_2 _ H); cbn; rewrite <- ?app_assoc; cbn.
Ltac guard_in H := rewrite (bool_decide_eq_true_2 _ H); cbn; rewrite <- ?app_assoc; cbn.

Lemma doValidation_out doc st :
  ~ inProgram doc st -> doValidation doc st = (Ok [], after doc st [SvcGetRootFileNames]).
Proof. unfold doValidation. run_op doc st. intros H. guard_out H. reflexivity. Qed.

Lemma doComplete_out doc position st :
  ~ inProgram doc st ->
  doComplete doc position st
  = (Ok {| isIncomplete := false; items := [] |}, after doc st [SvcGetRootFileNames]).
Proof. unfold doComplete. run_op doc st. intros H. guard_out H. reflexivity. Qed.

Lemma doResolve_out doc item st :
  ~ inProgram doc st ->
  doResolve doc item st = (Ok NULL_COMPLETION, after doc st [SvcGetRootFileNames]).
Proof. unfold doResolve. run_op doc st. intros H. guard_out H. reflexivity. Qed.

Lemma doHover_out doc position st :
  ~ inProgram doc st ->
  doHover doc position st
  = (Ok {| hover_range := None; contents := [] |}, after doc st [SvcGetRootFileNames]).
Proof. unfold doHover. run_op doc st. intros H. guard_out H. reflexivity. Qed.

Lemma doSignatureHelp_out doc position st :
  ~ inProgram doc st ->
  doSignatureHelp doc position st = (Ok NULL_SIGNATURE, after doc st [SvcGetRootFileNames]).
Proof. unfold doSignatureHelp. run_op doc st. intros H. guard_out H. reflexivity. Qed.

Lemma findDocumentHighlight_out doc position st :
  ~ inProgram doc st ->
  findDocumentHighlight doc position st = (Ok [], after doc st [SvcGetRootFileNames]).
Proof. unfold findDocumentHighlight. run_op doc st. intros H. guard_out H. reflexivity. Qed.

Lemma findDocumentSymbols_out doc st :
  ~ inProgram doc st ->
  findDocumentSymbols doc st = (Ok [], after doc st [SvcGetRootFileNames]).
Proof. unfold findDocumentSymbols. run_op doc st. intros H. guard_out H. reflexivity. Qed.

Lemma findDefinition_out doc position st :
  ~ inProgram doc st ->
  findDefinition doc position st = (Ok [], after doc st [SvcGetRootFileNames]).
Proof. unfold findDefinition. run_op doc st. intros H. guard_out H. reflexivity. Qed.

Lemma findReferences_out doc position st :
  ~ inProgram doc st ->
  findReferences doc position st = (Ok [], after doc st [SvcGetRootFileNames]).
Proof. unfold findReferences. run_op doc st. intros H. guard_out H. reflexivity. Qed.

Lemma findComponents_run doc st :
  findComponents doc st
  = (Ok (ext_findComponents (serviceOf doc st) (getFileFsPath (uri doc))),
     after doc st [SvcFindComponents (getFileFsPath (uri doc))]).
Proof. unfold findComponents. run_op doc st. rewrite <- ?app_assoc. reflexivity. Qed.

Lemma formatSettingsOf_run formatParams st js v :
  vetur_format_js (config st) = Ok js ->
  get_prop js Before = Ok v ->
  formatSettingsOf formatParams st
  = (Ok (<[After := v]>
           (convertOptions formatParams js
              (if truthy (scriptInitialIndent formatParams) then 1 else 0))), st).
Proof.
  intros Hjs Hv. unfold formatSettingsOf, config_vetur_format_js, getConfig, lift,
    mbind, M_bind, mret, M_ret.
  rewrite Hjs, Hv. reflexivity.
Qed.

Lemma format_run doc range formatParams st js v :
  vetur_format_js (config st) = Ok js ->
  get_prop js Before = Ok v ->
  let formatSettings :=
    <[After := v]> (convertOptions formatParams js
                      (if truthy (scriptInitialIndent formatParams) then 1 else 0)) in
  let scriptDoc := scriptDocOf doc st in
  let fileFsPath := getFileFsPath (uri doc) in
  let start := offsetAt scriptDoc (range_start range) in
  let end_ := offsetAt scriptDoc (range_end range) in
  format doc range formatParams st
  = (Ok match getFormattingEditsForRange (serviceOf doc st) fileFsPath start end_
                formatSettings with
        | Some edits => map (textEditOf scriptDoc) (List.filter (within start end_) edits)
        | None => []
        end,
     after doc st [SvcGetFormattingEditsForRange fileFsPath start end_ formatSettings]).
Proof.
  intros Hjs Hv. cbn zeta. unfold format.
  unfold mbind at 1. unfold M_bind at 1.
  rewrite (formatSettingsOf_run _ _ _ _ Hjs Hv).
  run_op doc st. rewrite <- ?app_assoc. cbn.
  destruct (getFormattingEditsForRange _ _ _ _ _) as [edits|]; [|reflexivity].
  cbn. rewrite foldl_push. reflexivity.
Qed.


(** When the configuration cannot be read, [format] throws before it calls
    anything. *)
Lemma format_throws doc range formatParams st e :
  vetur_format_js_Before (config st) = Throw e ->
  format doc range formatParams st = (Throw e, st).
Proof.
  unfold vetur_format_js_Before, format, formatSettingsOf, config_vetur_format_js,
    getConfig, lift, mbind, M_bind, mret, M_ret.
  destruct (vetur_format_js (config st)) as [js|e'].
  - intros ->. reflexivity.
  - intros [= ->]. reflexivity.
Qed.

Lemma format_calls_engine doc range formatParams st v :
  vetur_format_js_Before (config st) = Ok v ->
  exists edits formatSettings,
    format doc range formatParams st
    = (Ok edits,
       after doc st
         [SvcGetFormattingEditsForRange (getFileFsPath (uri doc))
            (offsetAt (scriptDocOf doc st) (range_start range))
            (offsetAt (scriptDocOf doc st) (range_end range))
            formatSettings]).
Proof.
  unfold vetur_format_js_Before.
  destruct (vetur_format_js (config st)) as [js|e'] eqn:Hjs; [|discriminate].
  intros Hv. eexists _, _. apply (format_run doc range formatParams st js v Hjs Hv).
Qed.

(** C1.  When the path of [doc] is not among the engine's root files, each
    of the nine read operations returns its empty value -- the empty list
    for validation, highlights, symbols, definitions and references, the
    complete empty list for completion, the hover without contents,
    [NULL_SIGNATURE] for signature help, [NULL_COMPLETION] for resolve --
    having made, after the refresh, the root-file enumeration and no other
    call.  [findComponents] and [format] make no such check: whatever the
    root files are, the one hands the service to the component discovery
    and the other asks the engine for the edits, right after the refresh
    (the only way for [format] not to reach the engine is a [config]
    without [vetur.format.js], on which it throws before any call). *)
Theorem guard_short_circuits doc position item range formatParams st :
  (~ inProgram doc st ->
     doValidation doc st = (Ok [], after doc st [SvcGetRootFileNames]) /\
     doComplete doc position st
       = (Ok {| isIncomplete := false; items := [] |}, after doc st [SvcGetRootFileNames]) /\
     doResolve doc item st = (Ok NULL_COMPLETION, after doc st [SvcGetRootFileNames]) /\
     doHover doc position st
       = (Ok {| hover_range := None; contents := [] |}, after doc st [SvcGetRootFileNames]) /\
     doSignatureHelp doc position st
       = (Ok NULL_SIGNATURE, after doc st [SvcGetRootFileNames]) /\
     findDocumentHighlight doc position st = (Ok [], after doc st [SvcGetRootFileNames]) /\
     findDocumentSymbols doc st = (Ok [], after doc st [SvcGetRootFileNames]) /\
     findDefinition doc position st = (Ok [], after doc st [SvcGetRootFileNames]) /\
     findReferences doc position st = (Ok [], after doc st [SvcGetRootFileNames])) /\
  findComponents doc st
    = (Ok (ext_findComponents (serviceOf doc st) (getFileFsPath (uri doc))),
       after doc st [SvcFindComponents (getFileFsPath (uri doc))]) /\
  match vetur_format_js_Before (config st) with
  | Ok _ =>
      exists edits formatSettings,
        format doc range formatParams st
        = (Ok edits,
           after doc st
             [SvcGetFormattingEditsForRange (getFileFsPath (uri doc))
                (offsetAt (scriptDocOf doc st) (range_start range))
                (offsetAt (scriptDocOf doc st) (range_end range))
                formatSettings])
  | Throw e => format doc range formatParams st = (Throw e, st)
  end.
Proof.
  split; [intros H|split].
  - repeat split.
    + by apply doValidation_out.
    + by apply doComplete_out.
    + by apply doResolve_out.
    + by apply doHover_out.
    + by apply doSignatureHelp_out.
    + by apply findDocumentHighlight_out.
    + by apply findDocumentSymbols_out.
    + by apply findDefinition_out.
    + by apply findReferences_out.
  - apply findComponents_run.
  - destruct (vetur_format_js_Before (config st)) as [v|e] eqn:Hread.
    + by apply (format_calls_engine doc range formatParams st v).
    + by apply format_throws.
Qed.

(** C3.  With [start] and [end_] the offsets of the requested range, the
    edits [format] returns are those of the engine's answer, in its order,
    whose span satisfies [start <= span.start] and
    [span.start + span.length <= end_]; every other edit is dropped.  So an
    edit that ends one character past [end_] is dropped, an edit whose span
    is exactly [start .. end_] is kept, and an engine that answers with no
    edits (none at all, or the empty list) yields the empty list. *)
Theorem format_keeps_contained_edits doc range formatParams st js v :
  vetur_format_js (config st) = Ok js ->
  get_prop js Before = Ok v ->
  let scriptDoc := scriptDocOf doc st in
  let start := offsetAt scriptDoc (range_start range) in
  let end_ := offsetAt scriptDoc (range_end range) in
  exists result st' formatSettings,
    format doc range formatParams st = (Ok result, st') /\
    st' = after doc st [SvcGetFormattingEditsForRange (getFileFsPath (uri doc))
                          start end_ formatSettings] /\
    match getFormattingEditsForRange (serviceOf doc st) (getFileFsPath (uri doc))
            start end_ formatSettings with
    | None => result = []
    | Some edits =>
        exists kept,
          result = map (textEditOf scriptDoc) kept /\
          kept `sublist_of` edits /\
          (forall edit, edit ∈ kept <->
             edit ∈ edits /\
             start <= span_start (change_span edit) /\
             span_start (change_span edit) + span_length (change_span edit) <= end_) /\
          (forall edit,
             span_start (change_span edit) + span_length (change_span edit) = end_ + 1 ->
             edit ∉ kept) /\
          (forall edit, edit ∈ edits ->
             span_start (change_span edit) = start ->
             span_start (change_span edit) + span_length (change_span edit) = end_ ->
             edit ∈ kept) /\
          (edits = [] -> result = [])
    end.
Proof.
  intros Hjs Hv scriptDoc start end_.
  pose proof (format_run doc range formatParams st js v Hjs Hv) as Hrun.
  cbn zeta in Hrun. subst scriptDoc start end_.
  set (scriptDoc := scriptDocOf doc st) in *.
  set (start := offsetAt scriptDoc (range_start range)) in *.
  set (end_ := offsetAt scriptDoc (range_end range)) in *.
  eexists _, _, (<[After := v]> (convertOptions formatParams js
                   (if truthy (scriptInitialIndent formatParams) then 1 else 0))).
  split; [exact Hrun|]. clear Hrun. split; [reflexivity|].
  destruct (getFormattingEditsForRange _ _ _ _ _) as [edits|]; [|reflexivity].
  exists (List.filter (within start end_) edits).
  assert (Hin : forall edit, edit ∈ List.filter (within start end_) edits <->
             edit ∈ edits /\
             start <= span_start (change_span edit) /\
             span_start (change_span edit) + span_length (change_span edit) <= end_).
  { intros edit. rewrite !list_elem_of_In, filter_In. unfold within.
    rewrite andb_true_iff, Z.geb_le, Z.leb_le. tauto. }
  split; [reflexivity|]. split; [|split; [exact Hin|split; [|split]]].
  - clear Hin. induction edits as [|e edits IH]; cbn; [constructor|].
    destruct (within start end_ e); [by apply sublist_skip|by apply sublist_cons].
  - intros edit Hpast Hkept. apply Hin in Hkept. lia.
  - intros edit Hedit Hs He. apply Hin. split; [done|lia].
  - intros ->. reflexivity.
Qed.


(** ** The settings handed to the engine *)

Lemma convertOptions_object options (o : gmap string jsval) lvl k :
  setting (convertOptions options (JObj o) lvl) k
  = match o !! k with
    | Some v => v
    | None => setting (defaultJsFormattingOptions options lvl) k
    end.
Proof.
  unfold setting, convertOptions, assign. cbn [truthy].
  destruct (o !! k) as [v|] eqn:Hk.
  - by rewrite (lookup_union_Some_l _ _ _ _ Hk).
  - by rewrite (lookup_union_r _ _ _ Hk).
Qed.

(** When the client's object has the key, the two fields do agree. *)
Lemma settings_agree_when_key_present options (o : gmap string jsval) lvl v :
  o !! Before = Some v ->
  let formatSettings := <[After := v]> (convertOptions options (JObj o) lvl) in
  setting formatSettings After = v /\ setting formatSettings Before = v.
Proof.
  intros Hk formatSettings. subst formatSettings. split.
  - unfold setting. by rewrite lookup_insert_eq.
  - unfold setting at 1. rewrite lookup_insert_ne by done.
    fold (setting (convertOptions options (JObj o) lvl) Before).
    by rewrite convertOptions_object, Hk.
Qed.

(** C4 does not hold of the code.  A client configuration that has
    [vetur.format.js] but does not set [InsertSpaceBeforeFunctionParenthesis]
    under it ([fxBareConfig]) makes [format] hand the engine a settings
    object in which [InsertSpaceBeforeFunctionParenthesis] is the default
    [true] while [InsertSpaceAfterFunctionKeywordForAnonymousFunctions] is
    [undefined]: line 284 copies the field from the client's object, not
    from the merged settings. *)
Theorem format_settings_disagree doc range formatParams (h : HostState) (calls : list Event) :
  let st := {| config := fxBareConfig; host := h; trace := calls |} in
  exists edits formatSettings,
    format doc range formatParams st
    = (Ok edits,
       after doc st
         [SvcGetFormattingEditsForRange (getFileFsPath (uri doc))
            (offsetAt (scriptDocOf doc st) (range_start range))
            (offsetAt (scriptDocOf doc st) (range_end range))
            formatSettings]) /\
    setting formatSettings Before = JBool true /\
    setting formatSettings After = JUndefined.
Proof.
  intros st.
  assert (Hjs : vetur_format_js (config st) = Ok (JObj ∅)) by reflexivity.
  assert (Hv : get_prop (JObj ∅) Before = Ok JUndefined) by reflexivity.
  eexists _, _. split; [apply (format_run doc range formatParams st _ _ Hjs Hv)|].
  split.
  - unfold setting at 1. rewrite lookup_insert_ne by done.
    fold (setting (convertOptions formatParams (JObj ∅)
                     (if truthy (scriptInitialIndent formatParams) then 1 else 0)) Before).
    rewrite convertOptions_object, lookup_empty. reflexivity.
  - unfold setting. by rewrite lookup_insert_eq.
Qed.


(** ** Completion *)

(** C5.  For a document of the program and an item that carries its
    correlation payload, [doResolve] asks the engine for the entry details
    at the payload's offset under the item's label.  With details, it
    returns the item with [detail] the text of the display parts,
    [documentation] the text of the documentation parts and the payload
    removed; without, it returns the item as it came, payload included. *)
Theorem doResolve_details doc item payload st :
  inProgram doc st ->
  data item = Some payload ->
  let fileFsPath := getFileFsPath (uri doc) in
  exists resolved,
    doResolve doc item st
    = (Ok resolved,
       after doc st
         [SvcGetRootFileNames;
          SvcGetCompletionEntryDetails fileFsPath (data_offset payload) (label item)]) /\
    match getCompletionEntryDetails (serviceOf doc st) fileFsPath
            (data_offset payload) (label item) with
    | Some details =>
        resolved = resolvedItem item details /\
        detail resolved = Some (displayPartsToString (details_displayParts details)) /\
        documentation resolved
          = Some (displayPartsToString (details_documentation details)) /\
        data resolved = None
    | None => resolved = item /\ data resolved = Some payload
    end.
Proof.
  intros Hin Hdata fileFsPath. subst fileFsPath. revert Hin.
  unfold doResolve. run_op doc st. intros Hin. guard_in Hin.
  rewrite Hdata. cbn. rewrite <- ?app_assoc. cbn.
  destruct (getCompletionEntryDetails _ _ _ _) as [details|]; cbn.
  - eexists. split; [reflexivity|]. repeat split; reflexivity.
  - eexists. split; [reflexivity|]. split; [reflexivity|exact Hdata].
Qed.

(** C6.  For a document of the program, [doComplete] returns a list that
    is not incomplete and has no item labelled [__vueEditorBridge]; its
    items are, in order, those of the engine's entries other than the
    sentinel, each with the entry's name as label, the entry's sort text,
    the classified kind, a text edit (the replacement span as a range, the
    entry's name as new text) exactly when the entry has a replacement
    span, and the payload (languageId, uri, offset of the request). *)
Theorem doComplete_items doc position st :
  inProgram doc st ->
  let scriptDoc := scriptDocOf doc st in
  let fileFsPath := getFileFsPath (uri doc) in
  let offset := offsetAt scriptDoc position in
  let surfaced :=
    filter (fun entry => entry_name entry ≠ sentinel)
      (default [] (entries <$> getCompletionsAtPosition (serviceOf doc st) fileFsPath offset)) in
  exists completions,
    doComplete doc position st
    = (Ok completions,
       after doc st [SvcGetRootFileNames; SvcGetCompletionsAtPosition fileFsPath offset]) /\
    isIncomplete completions = false /\
    Forall (fun item => label item ≠ sentinel) (items completions) /\
    Forall2 (fun entry item =>
               label item = entry_name entry /\
               sortText item = Some (entry_sortText entry) /\
               item_kind item = Some (convertKind (entry_kind entry)) /\
               textEdit item
                 = (fun span => {| te_range := convertRange scriptDoc span;
                                   newText := entry_name entry |}) <$> replacementSpan entry /\
               data item = Some {| data_languageId := languageId doc;
                                   data_uri := uri doc;
                                   data_offset := offset |})
            surfaced (items completions).
Proof.
  intros Hin scriptDoc fileFsPath offset surfaced.
  subst surfaced offset fileFsPath scriptDoc. revert Hin.
  unfold doComplete. run_op doc st. intros Hin. guard_in Hin.
  destruct (getCompletionsAtPosition _ _ _) as [completions|]; cbn.
  - eexists. split; [reflexivity|]. cbn. split; [reflexivity|]. split.
    + apply Forall_map. cbn. apply Forall_forall. intros entry Hentry.
      by apply list_elem_of_filter in Hentry as [Hne _].
    + apply Forall2_fmap_r. apply Forall_Forall2_diag, Forall_forall.
      intros entry _. cbn. destruct (replacementSpan entry); repeat split; reflexivity.
  - eexists. split; [reflexivity|]. cbn. repeat split; constructor.
Qed.

(** ** Definitions and references *)

(** C9.  For a document of the program, every location [findDefinition]
    and [findReferences] return has the URI of its target's [fileName] and
    a range resolved against one and the same document: the script
    document the service host keeps under the path of the requesting
    document, whatever file the target is in.  When the host keeps no
    script document under that path, the result is empty, whatever targets
    the engine returned. *)
Theorem targets_resolved_against_requesting_document doc position st :
  inProgram doc st ->
  let fileFsPath := getFileFsPath (uri doc) in
  let offset := offsetAt (scriptDocOf doc st) position in
  let requesting := getScriptDocByFsPath (hostAfter doc st) fileFsPath in
  findDefinition doc position st
  = (Ok match getDefinitionAtPosition (serviceOf doc st) fileFsPath offset, requesting with
        | Some definitions, Some targetDoc =>
            map (fun d => locationOf targetDoc (def_fileName d) (def_textSpan d)) definitions
        | _, _ => []
        end,
     after doc st [SvcGetRootFileNames; SvcGetDefinitionAtPosition fileFsPath offset]) /\
  findReferences doc position st
  = (Ok match getReferencesAtPosition (serviceOf doc st) fileFsPath offset, requesting with
        | Some references, Some targetDoc =>
            map (fun r => locationOf targetDoc (ref_fileName r) (ref_textSpan r)) references
        | _, _ => []
        end,
     after doc st [SvcGetRootFileNames; SvcGetReferencesAtPosition fileFsPath offset]).
Proof.
  intros Hin fileFsPath offset requesting. subst requesting offset fileFsPath.
  revert Hin. split.
  - revert Hin. unfold findDefinition. run_op doc st. intros Hin. guard_in Hin.
    destruct (getDefinitionAtPosition _ _ _) as [definitions|]; cbn; [|reflexivity].
    destruct (getScriptDocByFsPath _ _) as [targetDoc|]; cbn.
    + by rewrite foldl_push_all.
    + by rewrite foldl_skip.
  - revert Hin. unfold findReferences. run_op doc st. intros Hin. guard_in Hin.
    destruct (getReferencesAtPosition _ _ _) as [references|]; cbn; [|reflexivity].
    destruct (getScriptDocByFsPath _ _) as [targetDoc|]; cbn.
    + by rewrite foldl_push_all.
    + by rewrite foldl_skip.
Qed.

(** ** The fallback mode *)

(** C10.  Called with [null], [undefined] or the empty string for
    [workspacePath], [getJavascriptMode] returns [nullMode] extended with a
    [findComponents] that returns the empty list for every document (and
    touches nothing), and constructs neither a document cache nor a service
    host. *)
Theorem fallback_without_workspace (documentRegions : RegionsCache) workspacePath :
  workspacePath = wp_null \/ workspacePath = wp_undefined \/ workspacePath = wp_string "" ->
  let instance := getJavascriptMode documentRegions workspacePath in
  sm_base (mode instance) = nullMode /\
  (forall doc st, sm_findComponents (mode instance) doc st = (Ok [], st)) /\
  created instance = [] /\
  initial instance = None.
Proof.
  intros [-> | [-> | ->]]; cbn; repeat split; reflexivity.
Qed.

End Properties.

(** ** The theorems at the fixture *)

(** [/b.vue] is not a root file of the fixture's service. *)
Lemma guard_short_circuits_witness :
  ~ inProgram (E := fxExternals) fxOther (fxState fxConfig) /\
  doValidation (E := fxExternals) fxOther (fxState fxConfig)
  = (Ok [], after (E := fxExternals) fxOther (fxState fxConfig) [SvcGetRootFileNames]) /\
  doHover (E := fxExternals) fxOther fxPosition (fxState fxConfig)
  = (Ok {| hover_range := None; contents := [] |},
     after (E := fxExternals) fxOther (fxState fxConfig) [SvcGetRootFileNames]) /\
  exists edits formatSettings,
    format (E := fxExternals) fxOther fxRange fxOptions (fxState fxConfig)
    = (Ok edits,
       after (E := fxExternals) fxOther (fxState fxConfig)
         [SvcGetFormattingEditsForRange "/b.vue" 0 9 formatSettings]).
Proof.
  assert (Hout : ~ inProgram (E := fxExternals) fxOther (fxState fxConfig)).
  { unfold inProgram. apply (bool_decide_unpack _). vm_compute. exact I. }
  destruct (guard_short_circuits (E := fxExternals) fxOther fxPosition fxNullCompletion
              fxRange fxOptions (fxState fxConfig)) as (Hread & _ & Hformat).
  destruct (Hread Hout) as (Hvalidation & _ & _ & Hhover & _).
  split; [exact Hout|]. split; [exact Hvalidation|]. split; [exact Hhover|].
  exact Hformat.
Defined.

(** Of the two edits the fixture's engine answers with, the one that ends
    one character past the range is dropped. *)
Lemma format_keeps_contained_edits_witness :
  (exists result st',
     format (E := fxExternals) fxDoc fxRange fxOptions (fxState fxConfig)
     = (Ok result, st')) /\
  (format (E := fxExternals) fxDoc fxRange fxOptions (fxState fxConfig)).1
  = Ok [ {| te_range := fxRange; newText := "let x = 1;" |} ].
Proof.
  split; [|vm_compute; reflexivity].
  destruct (format_keeps_contained_edits (E := fxExternals) fxDoc fxRange fxOptions
              (fxState fxConfig)
              (JObj {[ "InsertSpaceBeforeFunctionParenthesis" := JBool false ]})
              (JBool false) eq_refl eq_refl)
    as (result & st' & formatSettings & Hrun & _).
  exists result, st'. exact Hrun.
Defined.

Lemma fxDoc_inProgram (c : jsval) : inProgram (E := fxExternals) fxDoc (fxState c).
Proof. unfold inProgram. apply (bool_decide_unpack _). vm_compute. exact I. Defined.

(** The fixture's engine has details for [x] and none for [y]. *)
Lemma doResolve_details_witness :
  (exists st',
     doResolve (E := fxExternals) fxDoc (fxItem "x") (fxState JUndefined)
     = (Ok (resolvedItem (E := fxExternals) (fxItem "x")
              {| details_displayParts := [ {| part_text := "let x: number";
                                              part_kind := "text" |} ];
                 details_documentation := [] |}), st')) /\
  (exists st',
     doResolve (E := fxExternals) fxDoc (fxItem "y") (fxState JUndefined)
     = (Ok (fxItem "y"), st')).
Proof.
  split.
  - destruct (doResolve_details (E := fxExternals) fxDoc (fxItem "x")
                {| data_languageId := "vue"; data_uri := "/a.vue"; data_offset := 12 |}
                (fxState JUndefined) (fxDoc_inProgram JUndefined) eq_refl)
      as (resolved & Hrun & Hresolved).
    cbn in Hresolved. destruct Hresolved as (-> & _).
    eexists. exact Hrun.
  - destruct (doResolve_details (E := fxExternals) fxDoc (fxItem "y")
                {| data_languageId := "vue"; data_uri := "/a.vue"; data_offset := 12 |}
                (fxState JUndefined) (fxDoc_inProgram JUndefined) eq_refl)
      as (resolved & Hrun & Hresolved).
    cbn in Hresolved. destruct Hresolved as (-> & _).
    eexists. exact Hrun.
Defined.

(** Of the fixture's three entries the sentinel is not surfaced. *)
Lemma doComplete_items_witness :
  exists completions st',
    doComplete (E := fxExternals) fxDoc fxPosition (fxState JUndefined)
    = (Ok completions, st') /\
    isIncomplete completions = false /\
    Forall (fun item => label item ≠ sentinel) (items completions) /\
    length (items completions) = 2%nat.
Proof.
  destruct (doComplete_items (E := fxExternals) fxDoc fxPosition (fxState JUndefined)
              (fxDoc_inProgram JUndefined))
    as (completions & Hrun & Hincomplete & Hsentinel & Hitems).
  exists completions. eexists. split; [exact Hrun|]. split; [exact Hincomplete|].
  split; [exact Hsentinel|].
  apply Forall2_length in Hitems. rewrite <- Hitems. reflexivity.
Defined.

(** The fixture's target is in [/b.vue]; its span 15..17 is resolved
    against the 16 characters of [/a.vue]. *)
Lemma targets_resolved_against_requesting_document_witness :
  (findDefinition (E := fxExternals) fxDoc fxPosition (fxState JUndefined)).1
  = Ok [ {| loc_uri := "file:///b.vue";
            loc_range := convertRange fxDoc {| span_start := 15; span_length := 2 |} |} ] /\
  (findReferences (E := fxExternals) fxDoc fxPosition (fxState JUndefined)).1
  = Ok [ {| loc_uri := "file:///b.vue";
            loc_range := convertRange fxDoc {| span_start := 15; span_length := 2 |} |} ].
Proof.
  destruct (targets_resolved_against_requesting_document (E := fxExternals) fxDoc fxPosition
              (fxState JUndefined) (fxDoc_inProgram JUndefined)) as (Hdefinition & Hreferences).
  rewrite Hdefinition, Hreferences. split; reflexivity.
Defined.

Lemma fallback_without_workspace_witness :
  sm_base (mode (getJavascriptMode (E := fxExternals) tt (wp_string ""))) = fxNullMode /\
  created (getJavascriptMode (E := fxExternals) tt (wp_string "")) = [] /\
  created (getJavascriptMode (E := fxExternals) tt wp_null) = [] /\
  created (getJavascriptMode (E := fxExternals) tt wp_undefined) = [].
Proof.
  destruct (fallback_without_workspace (E := fxExternals) tt (wp_string "")
              (or_intror (or_intror eq_refl))) as (Hbase & _ & Hcreated & _).
  destruct (fallback_without_workspace (E := fxExternals) tt wp_null
              (or_introl eq_refl)) as (_ & _ & Hnull & _).
  destruct (fallback_without_workspace (E := fxExternals) tt wp_undefined
              (or_intror (or_introl eq_refl))) as (_ & _ & Hundefined & _).
  repeat split; assumption.
Defined.

(** A mode that was never configured has [config = {}]: [format] throws on
    [config.vetur.format] and calls nothing. *)
Example format_before_configure :
  format (E := fxExternals) fxDoc fxRange fxOptions (fxState (JObj ∅))
  = (Throw (TypeError "Cannot read property 'format' of undefined"), fxState (JObj ∅)).
Proof. reflexivity. Qed.

(** With a workspace the mode is the real one, on a cache and a host. *)
Example mode_with_workspace :
  created (getJavascriptMode (E := fxExternals) tt (wp_string "/work"))
  = [NewLanguageModelCache 10 60; NewServiceHost "/work"].
Proof. reflexivity. Qed.

(** ** The outline as a whole *)

Section OutlineInvariants.
Variables doc scriptDoc : TextDocument.

Lemma flattenItem_eq item : flattenItem item = item :: flattenItems (children item).
Proof. destruct item as [t k s ms [l|]]; reflexivity. Qed.

Lemma flattenItems_cons item items :
  flattenItems (item :: items) = flattenItem item ++ flattenItems items.
Proof. reflexivity. Qed.

Lemma flattenItems_app items items' :
  flattenItems (items ++ items') = flattenItems items ++ flattenItems items'.
Proof. unfold flattenItems. apply flat_map_app. Qed.

Lemma nonScriptSignatures_app_flat (l l' : list NavigationBarItem) :
  (list_to_set (signature_key <$> filter (fun item => nav_kind item ≠ "script") (l ++ l'))
     : gset string)
  = list_to_set (signature_key <$> filter (fun item => nav_kind item ≠ "script") l)
    ∪ list_to_set (signature_key <$> filter (fun item => nav_kind item ≠ "script") l').
Proof. by rewrite filter_app, fmap_app, list_to_set_app_L. Qed.

Lemma nonScriptSignatures_cons item items :
  nonScriptSignatures (item :: items)
  = nonScriptSignatures [item] ∪ nonScriptSignatures items.
Proof.
  unfold nonScriptSignatures. rewrite flattenItems_cons.
  rewrite nonScriptSignatures_app_flat. f_equal.
  unfold flattenItems. cbn. by rewrite app_nil_r.
Qed.

Lemma nonScriptSignatures_item item :
  nonScriptSignatures [item]
  = (if decide (nav_kind item ≠ "script") then {[ signature_key item ]} else ∅)
    ∪ nonScriptSignatures (children item).
Proof.
  unfold nonScriptSignatures, flattenItems at 1. cbn [flat_map]. rewrite app_nil_r.
  rewrite flattenItem_eq, filter_cons.
  destruct (decide (nav_kind item ≠ "script")); cbn; [reflexivity|].
  by rewrite (left_id_L ∅ (∪)).
Qed.

Lemma emits_true item o :
  emits item o = true <-> nav_kind item ≠ "script" /\ seen o (signature_key item) = false.
Proof.
  unfold emits. rewrite andb_true_iff, !negb_true_iff.
  destruct (String.eqb_spec (nav_kind item) "script"); split; intros [? ?]; done.
Qed.

Lemma seen_false_fresh o sig :
  marksAreTrue o -> seen o sig = false -> sig ∉ dom (existing o).
Proof.
  intros Hmarks Hseen Hdom. apply elem_of_dom in Hdom as [mark Hmark].
  unfold seen in Hseen. rewrite Hmark in Hseen. cbn in Hseen.
  specialize (Hmarks _ _ Hmark). congruence.
Qed.

Lemma seen_true_dom o sig : seen o sig = true -> sig ∈ dom (existing o).
Proof.
  unfold seen. destruct (existing o !! sig) as [mark|] eqn:Hmark; [|discriminate].
  intros _. apply elem_of_dom. eauto.
Qed.

Lemma marksAreTrue_emitted item containerLabel o :
  marksAreTrue o -> marksAreTrue (emitted doc scriptDoc item containerLabel o).
Proof.
  intros Hmarks sig mark. unfold emitted. cbn [existing].
  destruct (decide (signature_key item = sig)) as [<-|Hne].
  - rewrite lookup_insert_eq. congruence.
  - rewrite lookup_insert_ne by done. apply Hmarks.
Qed.

Lemma extends_nil o : marksAreTrue o -> extends doc [] o o.
Proof.
  intros Hmarks. split; [exact Hmarks|]. split.
  - unfold nonScriptSignatures. cbn. by rewrite (right_id_L ∅ (∪)).
  - exists []. rewrite app_nil_r. repeat split; [constructor|constructor].
Qed.

Lemma extends_trans items items' o o' o'' :
  extends doc items o o' -> extends doc items' o' o'' -> extends doc (items ++ items') o o''.
Proof.
  intros (_ & Hdom & new & Hres & Hlen & Hsub & Huri)
         (Hmarks & Hdom' & new' & Hres' & Hlen' & Hsub' & Huri').
  split; [exact Hmarks|]. split.
  - rewrite Hdom', Hdom. unfold nonScriptSignatures.
    rewrite flattenItems_app, nonScriptSignatures_app_flat. by rewrite (assoc_L (∪)).
  - exists (new ++ new'). split; [by rewrite Hres', Hres, app_assoc|].
    split; [rewrite length_app; lia|]. split.
    + rewrite map_app, flattenItems_app, map_app. by apply sublist_app.
    + by apply Forall_app.
Qed.

Lemma extends_emitted item containerLabel o :
  marksAreTrue o -> emits item o = true ->
  forall o', extends doc (children item) (emitted doc scriptDoc item containerLabel o) o' ->
  extends doc [item] o o'.
Proof.
  intros Hmarks Hemit o' (Hmarks' & Hdom & new & Hres & Hlen & Hsub & Huri).
  apply emits_true in Hemit as [Hkind Hseen].
  pose proof (seen_false_fresh _ _ Hmarks Hseen) as Hfresh.
  assert (Hdome : dom (existing (emitted doc scriptDoc item containerLabel o))
                  = {[ signature_key item ]} ∪ dom (existing o)).
  { unfold emitted. cbn [existing]. apply dom_insert_L. }
  split; [exact Hmarks'|]. split.
  - rewrite Hdom, Hdome, nonScriptSignatures_item.
    rewrite decide_True by done.
    by rewrite (comm_L (∪) {[ signature_key item ]} (dom (existing o))), !(assoc_L (∪)).
  - exists (symbolOf doc scriptDoc item containerLabel :: new). split.
    + rewrite Hres. unfold emitted. cbn [result_]. by rewrite <- app_assoc.
    + split.
      * rewrite <- Hlen, Hdome.
        rewrite size_union by (by apply disjoint_singleton_l).
        rewrite size_singleton. cbn [length]. lia.
      * split.
        -- unfold flattenItems at 1. cbn [flat_map]. rewrite app_nil_r, flattenItem_eq.
           cbn [map]. change (name (symbolOf doc scriptDoc item containerLabel))
             with (nav_text item). by apply sublist_skip.
        -- constructor; [reflexivity|exact Huri].
Qed.

Lemma extends_skipped item o :
  emits item o = false ->
  forall o', extends doc (children item) o o' -> extends doc [item] o o'.
Proof.
  intros Hemit o' (Hmarks' & Hdom & new & Hres & Hlen & Hsub & Huri).
  split; [exact Hmarks'|]. split.
  - rewrite Hdom, nonScriptSignatures_item.
    destruct (decide (nav_kind item ≠ "script")) as [Hkind|_];
      [|by rewrite (left_id_L ∅ (∪))].
    assert (Hseen : seen o (signature_key item) = true).
    { destruct (seen o (signature_key item)) eqn:Hs; [done|].
      assert (emits item o = true) by (apply emits_true; done). congruence. }
    apply seen_true_dom in Hseen. rewrite (assoc_L (∪)). f_equal.
    rewrite (comm_L (∪)). symmetry. apply subseteq_union_1_L.
    by apply singleton_subseteq_l.
  - exists new. repeat split; [exact Hres|exact Hlen| |exact Huri].
    unfold flattenItems at 1. cbn [flat_map]. rewrite app_nil_r, flattenItem_eq.
    cbn [map]. by apply sublist_cons.
Qed.

Lemma collectSymbols_extends item :
  forall containerLabel o,
    marksAreTrue o ->
    extends doc [item] o (collectSymbols doc scriptDoc item containerLabel o).
Proof.
  induction item as [item IH] using NavigationBarItem_tree_ind.
  assert (Hall : forall containerLabel o,
             marksAreTrue o ->
             extends doc (children item) o
               (collectAll doc scriptDoc (children item) containerLabel o)).
  { induction IH as [|child l Hchild _ IHl]; intros containerLabel o Ho.
    - by apply extends_nil.
    - rewrite collectAll_cons.
      apply (extends_trans [child] l _ _ _ (Hchild containerLabel o Ho)).
      apply IHl. by destruct (Hchild containerLabel o Ho). }
  intros containerLabel o Ho. rewrite collectSymbols_eq.
  destruct (emits item o) eqn:Hemit.
  - apply (extends_emitted item containerLabel o Ho Hemit).
    apply Hall. by apply marksAreTrue_emitted.
  - apply (extends_skipped item o Hemit). by apply Hall.
Qed.

Lemma collectAll_extends items :
  forall containerLabel o,
    marksAreTrue o ->
    extends doc items o (collectAll doc scriptDoc items containerLabel o).
Proof.
  induction items as [|item items IH]; intros containerLabel o Ho.
  - by apply extends_nil.
  - rewrite collectAll_cons.
    pose proof (collectSymbols_extends item containerLabel o Ho) as Hitem.
    apply (extends_trans [item] items _ _ _ Hitem).
    apply IH. by destruct Hitem.
Qed.

End OutlineInvariants.

Lemma marksAreTrue_empty : marksAreTrue emptyOutline.
Proof. intros sig mark Hmark. cbn in Hmark. by rewrite lookup_empty in Hmark. Qed.

(** X6.  The names of an outline built from scratch are, in order, names of
    the items of the forest in the engine's depth-first order (parent
    first, siblings as reported): symbols are dropped, never reordered. *)
Theorem outline_keeps_engine_order (doc scriptDoc : TextDocument)
    (items : list NavigationBarItem) (containerLabel : option string) :
  map name (result_ (collectAll doc scriptDoc items containerLabel emptyOutline))
    `sublist_of` map nav_text (flattenItems items).
Proof.
  destruct (collectAll_extends doc scriptDoc items containerLabel emptyOutline
              marksAreTrue_empty) as (_ & _ & new & Hres & _ & Hsub & _).
  rewrite Hres. exact Hsub.
Qed.

(** X7.  An item of kind 'script' is transparent: a forest gives the same
    outline as the forest in which the item is replaced by its children,
    which are visited under the label the item itself was visited with. *)
Theorem script_item_is_transparent (doc scriptDoc : TextDocument)
    (before after_ : list NavigationBarItem) (root : NavigationBarItem)
    (containerLabel : option string) (o : Outline) :
  nav_kind root = "script" ->
  collectAll doc scriptDoc (before ++ root :: after_) containerLabel o
  = collectAll doc scriptDoc (before ++ children root ++ after_) containerLabel o.
Proof.
  intros Hkind. rewrite !collectAll_app, collectAll_cons. f_equal.
  rewrite collectSymbols_eq. unfold emits. by rewrite Hkind.
Qed.

(** The 'script' root of the fixture's tree may be peeled off. *)
Lemma script_item_is_transparent_witness :
  collectAll fxDoc fxDoc fxTree None emptyOutline
  = collectAll fxDoc fxDoc
      [ mkNavigationBarItem "foo" "function" {| span_start := 10; span_length := 3 |} []
          (Some [fxLeaf "x" 4]);
        mkNavigationBarItem "foo" "function" {| span_start := 10; span_length := 3 |} [] None;
        fxLeaf "x" 4 ] None emptyOutline.
Proof.
  exact (script_item_is_transparent fxDoc fxDoc [] []
           (mkNavigationBarItem "<global>" "script" {| span_start := 0; span_length := 16 |} []
              (Some [ mkNavigationBarItem "foo" "function"
                        {| span_start := 10; span_length := 3 |} [] (Some [fxLeaf "x" 4]);
                      mkNavigationBarItem "foo" "function"
                        {| span_start := 10; span_length := 3 |} [] None;
                      fxLeaf "x" 4 ]))
           None emptyOutline eq_refl).
Defined.

(** ** The rest of the operations *)

Lemma string_append_nil_r (s : string) : s +:+ "" = s.
Proof. induction s as [|c s IH]; [reflexivity|]. change (String c (s +:+ "") = String c s). by f_equal. Qed.

Lemma string_append_assoc (s1 s2 s3 : string) : (s1 +:+ s2) +:+ s3 = s1 +:+ (s2 +:+ s3).
Proof.
  induction s1 as [|c s1 IH]; [reflexivity|].
  change (String c ((s1 +:+ s2) +:+ s3) = String c (s1 +:+ (s2 +:+ s3))). by f_equal.
Qed.

Section MoreProperties.
Context {T : ExtTypes} {E : Externals}.

Ltac exec doc st :=
  unfold refresh, languageServiceIncludesFile, ask, record, getHost, getConfig, lift,
    mbind, M_bind, mret, M_ret;
  unfold inProgram, after, scriptDocOf, serviceOf, hostAfter;
  cbn;
  destruct (updateCurrentTextDocument (host st) doc) as [[scriptDoc service] host'];
  cbn.

Ltac pass H := rewrite (bool_decide_eq_true_2 _ H); cbn; rewrite <- ?app_assoc; cbn.

(** *** Validation *)

(** X1.  For a document of the program, [doValidation] asks for the
    syntactic and then the semantic diagnostics and returns one diagnostic
    per engine diagnostic, the syntactic ones first, in the engine's order,
    each with its span as a range of the script document, the flattened
    message and severity Error, whatever the engine's category. *)
Theorem doValidation_reports_every_diagnostic doc st :
  inProgram doc st ->
  let scriptDoc := scriptDocOf doc st in
  let fileFsPath := getFileFsPath (uri doc) in
  let syntactic := getSyntacticDiagnostics (serviceOf doc st) fileFsPath in
  let semantic := getSemanticDiagnostics (serviceOf doc st) fileFsPath in
  exists diagnostics,
    doValidation doc st
    = (Ok diagnostics,
       after doc st [SvcGetRootFileNames; SvcGetSyntacticDiagnostics fileFsPath;
                     SvcGetSemanticDiagnostics fileFsPath]) /\
    diagnostics = map (diagnosticOf scriptDoc) syntactic ++ map (diagnosticOf scriptDoc) semantic /\
    length diagnostics = (length syntactic + length semantic)%nat /\
    Forall (fun d => severity d = SeverityError) diagnostics.
Proof.
  intros Hin scriptDoc fileFsPath syntactic semantic.
  subst scriptDoc fileFsPath syntactic semantic. revert Hin.
  unfold doValidation. exec doc st. intros Hin. pass Hin.
  eexists. split; [reflexivity|]. split; [apply map_app|]. split.
  - by rewrite length_map, length_app.
  - apply Forall_map, Forall_forall. intros diag _. reflexivity.
Qed.

(** *** Hover *)

(** X2.  For a document of the program, [doHover] returns the hover without
    contents when the engine has no quick info.  Otherwise the range is the
    info's span and the contents end with the display text as a 'ts' code
    block, preceded by the documentation text and a line break exactly when
    the documentation text is not empty. *)
Theorem doHover_contents doc position st :
  inProgram doc st ->
  let scriptDoc := scriptDocOf doc st in
  let fileFsPath := getFileFsPath (uri doc) in
  let offset := offsetAt scriptDoc position in
  exists hover,
    doHover doc position st
    = (Ok hover, after doc st [SvcGetRootFileNames; SvcGetQuickInfoAtPosition fileFsPath offset]) /\
    match getQuickInfoAtPosition (serviceOf doc st) fileFsPath offset with
    | None => hover = {| hover_range := None; contents := [] |}
    | Some info =>
        let display := displayPartsToString (info_displayParts info) in
        let docText := displayPartsToString (info_documentation info) in
        hover_range hover = Some (convertRange scriptDoc (info_textSpan info)) /\
        (docText = "" -> contents hover = [MarkedCode "ts" display]) /\
        (docText ≠ "" ->
           contents hover
           = [MarkedText docText; MarkedText (String LF ""); MarkedCode "ts" display])
    end.
Proof.
  intros Hin scriptDoc fileFsPath offset. subst scriptDoc fileFsPath offset. revert Hin.
  unfold doHover. exec doc st. intros Hin. pass Hin.
  destruct (getQuickInfoAtPosition _ _ _) as [info|]; cbn.
  - eexists. split; [reflexivity|]. cbn. split; [reflexivity|].
    destruct (String.eqb_spec (displayPartsToString (info_documentation info)) "")
      as [Hempty|Hfull]; cbn; split; intros H; congruence.
  - eexists. split; reflexivity.
Qed.

(** *** Signature help *)

Lemma foldl_addParameter item (rest : list SignatureHelpParameter) :
  forall (k : nat) (acc : SignatureInformation),
    (k + length rest = length (shi_parameters item))%nat ->
    foldl (addParameter item) acc (imap (fun i => pair (k + i)%nat) rest)
    = {| sig_label :=
           sig_label acc +:+
           String.concat (displayPartsToString (separatorDisplayParts item))
                         (map (fun p => displayPartsToString (shp_displayParts p)) rest);
         sig_documentation := sig_documentation acc;
         parameters := parameters acc ++ map parameterOf rest |}.
Proof.
  induction rest as [|p rest IH]; intros k acc Hk.
  - cbn. rewrite string_append_nil_r, app_nil_r. by destruct acc.
  - rewrite imap_cons. cbn [foldl].
    rewrite (imap_ext _ (fun i => pair (S k + i)%nat)) by (intros; cbn; f_equal; lia).
    rewrite IH by (cbn in Hk; lia).
    unfold addParameter at 1 2 3. cbn [sig_label sig_documentation parameters].
    destruct rest as [|p' rest]; cbn [length] in Hk.
    + destruct (Z.ltb_spec (Z.of_nat (k + 0)) (Z.of_nat (length (shi_parameters item)) - 1))
        as [Hlt|_]; [lia|].
      cbn. rewrite string_append_nil_r. by rewrite <- app_assoc.
    + destruct (Z.ltb_spec (Z.of_nat (k + 0)) (Z.of_nat (length (shi_parameters item)) - 1))
        as [_|Hge]; [|lia].
      cbn [map String.concat]. rewrite !string_append_assoc. by rewrite <- app_assoc.
Qed.

Lemma signatureOf_eq item :
  signatureOf item
  = {| sig_label :=
         displayPartsToString (prefixDisplayParts item) +:+
         String.concat (displayPartsToString (separatorDisplayParts item))
           (map (fun p => displayPartsToString (shp_displayParts p)) (shi_parameters item)) +:+
         displayPartsToString (suffixDisplayParts item);
       sig_documentation := None;
       parameters := map parameterOf (shi_parameters item) |}.
Proof.
  unfold signatureOf.
  rewrite (imap_ext pair (fun i => pair (0 + i)%nat)) by reflexivity.
  rewrite foldl_addParameter by reflexivity.
  cbn. by rewrite string_append_assoc.
Qed.


(** X3.  For a document of the program, [doSignatureHelp] returns
    [NULL_SIGNATURE] when the engine has no items.  Otherwise the active
    signature and parameter are the engine's indices, and there is one
    signature per engine item, in order, with one parameter per engine
    parameter and a label that is the prefix, the parameter labels joined
    by the separator (no separator after the last), and the suffix. *)
Theorem doSignatureHelp_labels doc position st :
  inProgram doc st ->
  let fileFsPath := getFileFsPath (uri doc) in
  let offset := offsetAt (scriptDocOf doc st) position in
  exists help,
    doSignatureHelp doc position st
    = (Ok help, after doc st [SvcGetRootFileNames; SvcGetSignatureHelpItems fileFsPath offset]) /\
    match getSignatureHelpItems (serviceOf doc st) fileFsPath offset with
    | None => help = NULL_SIGNATURE
    | Some signHelp =>
        activeSignature help = selectedItemIndex signHelp /\
        activeParameter help = argumentIndex signHelp /\
        Forall2 (fun item signature =>
                   parameters signature = map parameterOf (shi_parameters item) /\
                   sig_documentation signature = None /\
                   sig_label signature
                   = displayPartsToString (prefixDisplayParts item) +:+
                     String.concat (displayPartsToString (separatorDisplayParts item))
                                   (map param_label (parameters signature)) +:+
                     displayPartsToString (suffixDisplayParts item))
                (sh_items signHelp) (signatures help)
    end.
Proof.
  intros Hin fileFsPath offset. subst fileFsPath offset. revert Hin.
  unfold doSignatureHelp. exec doc st. intros Hin. pass Hin.
  destruct (getSignatureHelpItems _ _ _) as [signHelp|]; cbn.
  - eexists. split; [reflexivity|]. cbn. split; [reflexivity|]. split; [reflexivity|].
    rewrite (foldl_push_all signatureOf), app_nil_l.
    apply Forall2_fmap_r, Forall_Forall2_diag, Forall_forall. intros item _.
    unfold compose. rewrite signatureOf_eq. cbn. repeat split.
    by rewrite map_map.
  - eexists. split; reflexivity.
Qed.

(** *** Highlights *)

(** X4.  For a document of the program, [findDocumentHighlight] returns one
    highlight per occurrence the engine reports (none when it reports
    nothing), in order, of kind Write exactly for a write access and Text
    otherwise: the kind Read is never produced. *)
Theorem findDocumentHighlight_kinds doc position st :
  inProgram doc st ->
  let scriptDoc := scriptDocOf doc st in
  let fileFsPath := getFileFsPath (uri doc) in
  let offset := offsetAt scriptDoc position in
  let occurrences :=
    default [] (getOccurrencesAtPosition (serviceOf doc st) fileFsPath offset) in
  exists highlights,
    findDocumentHighlight doc position st
    = (Ok highlights,
       after doc st [SvcGetRootFileNames; SvcGetOccurrencesAtPosition fileFsPath offset]) /\
    highlights = map (highlightOf scriptDoc) occurrences /\
    Forall2 (fun entry highlight =>
               hl_range highlight = convertRange scriptDoc (ref_textSpan entry) /\
               (hl_kind highlight = HighlightWrite <-> isWriteAccess entry = true) /\
               (hl_kind highlight = HighlightText <-> isWriteAccess entry = false))
            occurrences highlights /\
    Forall (fun highlight => hl_kind highlight ≠ HighlightRead) highlights.
Proof.
  intros Hin scriptDoc fileFsPath offset occurrences.
  subst occurrences offset fileFsPath scriptDoc. revert Hin.
  unfold findDocumentHighlight. exec doc st. intros Hin. pass Hin.
  destruct (getOccurrencesAtPosition _ _ _) as [occurrences|]; cbn.
  - eexists. split; [reflexivity|]. split; [reflexivity|]. split.
    + apply Forall2_fmap_r, Forall_Forall2_diag, Forall_forall. intros entry _.
      cbn. destruct (isWriteAccess entry); repeat split; congruence.
    + apply Forall_map, Forall_forall. intros entry _. cbn.
      destruct (isWriteAccess entry); discriminate.
  - eexists. split; [reflexivity|]. repeat split; constructor.
Qed.

(** *** The outline, end to end *)

(** X5.  For a document of the program whose navigation tree the engine
    reports, [findDocumentSymbols] returns exactly one symbol per distinct
    signature (name + kind + first-span start) among the items of the tree
    that are not of kind 'script', each located in the requesting
    document. *)
Theorem findDocumentSymbols_one_symbol_per_signature doc st items :
  inProgram doc st ->
  getNavigationBarItems (serviceOf doc st) (getFileFsPath (uri doc)) = Some items ->
  exists symbols,
    findDocumentSymbols doc st
    = (Ok symbols,
       after doc st [SvcGetRootFileNames;
                     SvcGetNavigationBarItems (getFileFsPath (uri doc))]) /\
    length symbols = size (nonScriptSignatures items) /\
    Forall (fun symbol => loc_uri (location symbol) = uri doc) symbols.
Proof.
  intros Hin Hitems. revert Hin Hitems.
  unfold findDocumentSymbols. exec doc st. intros Hin Hitems. pass Hin.
  rewrite Hitems. cbn. eexists. split; [reflexivity|].
  destruct (collectAll_extends doc scriptDoc items None emptyOutline marksAreTrue_empty)
    as (_ & Hdom & new & Hres & Hlen & _ & Huri).
  rewrite Hres. cbn [emptyOutline result_ app]. split; [|exact Huri].
  rewrite Hdom in Hlen. cbn [emptyOutline existing] in Hlen.
  rewrite dom_empty_L, size_empty, (left_id_L ∅ (∪)) in Hlen. lia.
Qed.

(** *** What the read operations never do *)


(** *** Resolve *)

(** X8.  For a document of the program, [doResolve] on an item without
    correlation payload throws a TypeError after the guard, before any
    details are asked for.  In particular an item that was resolved with
    details, whose payload is gone, cannot be resolved a second time. *)
Theorem doResolve_needs_payload doc item st :
  inProgram doc st ->
  (data item = None ->
   doResolve doc item st
   = (Throw (TypeError "Cannot read property 'offset' of undefined"),
      after doc st [SvcGetRootFileNames])) /\
  (forall details,
     doResolve doc (resolvedItem item details) st
     = (Throw (TypeError "Cannot read property 'offset' of undefined"),
        after doc st [SvcGetRootFileNames])).
Proof.
  intros Hin.
  assert (Hnone : forall item', data item' = None ->
            doResolve doc item' st
            = (Throw (TypeError "Cannot read property 'offset' of undefined"),
               after doc st [SvcGetRootFileNames])).
  { intros item' Hdata. revert Hin. unfold doResolve. exec doc st. intros Hin. pass Hin.
    rewrite Hdata. reflexivity. }
  split; [apply Hnone|]. intros details. by apply Hnone.
Qed.

(** X9.  Every item [doComplete] makes of a surfaced entry can be handed
    back: [doResolve], for any document of the program and in any later
    state, asks for the details of the entry's name at the offset computed
    when completion was requested (not at an offset of the document being
    resolved against), and returns the item resolved, or as it was. *)
Theorem completion_items_resolve_at_request_offset doc position st entry completions :
  inProgram doc st ->
  getCompletionsAtPosition (serviceOf doc st) (getFileFsPath (uri doc))
    (offsetAt (scriptDocOf doc st) position) = Some completions ->
  entry ∈ entries completions ->
  entry_name entry ≠ sentinel ->
  let offset := offsetAt (scriptDocOf doc st) position in
  let item := completionItem doc (scriptDocOf doc st) position offset entry in
  (exists list st', doComplete doc position st = (Ok list, st') /\ item ∈ items list) /\
  forall doc' st',
    inProgram doc' st' ->
    let fileFsPath := getFileFsPath (uri doc') in
    doResolve doc' item st'
    = (Ok match getCompletionEntryDetails (serviceOf doc' st') fileFsPath offset
                  (entry_name entry) with
          | Some details => resolvedItem item details
          | None => item
          end,
       after doc' st'
         [SvcGetRootFileNames;
          SvcGetCompletionEntryDetails fileFsPath offset (entry_name entry)]).
Proof.
  intros Hin Hcompletions Hentry Hname offset item. split.
  - subst item offset. revert Hin Hcompletions.
    unfold doComplete. exec doc st. intros Hin Hcompletions. pass Hin.
    rewrite Hcompletions. cbn. eexists _, _. split; [reflexivity|]. cbn.
    apply list_elem_of_fmap. exists entry. split; [reflexivity|].
    apply list_elem_of_filter. by split.
  - intros doc' st' Hin' fileFsPath. subst fileFsPath. revert Hin'.
    unfold doResolve. exec doc' st'. intros Hin'. pass Hin'.
    destruct (getCompletionEntryDetails _ _ _ _); reflexivity.
Qed.

(** *** The settings of [format] *)

Lemma setting_insert_other (formatSettings : gmap string jsval) k' v k :
  k ≠ k' -> setting (<[k' := v]> formatSettings) k = setting formatSettings k.
Proof. intros Hk. unfold setting. by rewrite lookup_insert_ne. Qed.

(** X10.  With an object under [config.vetur.format.js], the settings
    [format] hands to the engine take every key but
    [InsertSpaceAfterFunctionKeywordForAnonymousFunctions] from that object
    when it has the key and from the defaults otherwise; that one key is the
    object's [InsertSpaceBeforeFunctionParenthesis], [undefined] when the
    object has none, whatever the object says for the key itself. *)
Theorem format_settings_overrides_win doc range formatParams st (o : gmap string jsval) :
  vetur_format_js (config st) = Ok (JObj o) ->
  let initialIndentLevel := if truthy (scriptInitialIndent formatParams) then 1 else 0 in
  exists edits formatSettings,
    format doc range formatParams st
    = (Ok edits,
       after doc st
         [SvcGetFormattingEditsForRange (getFileFsPath (uri doc))
            (offsetAt (scriptDocOf doc st) (range_start range))
            (offsetAt (scriptDocOf doc st) (range_end range))
            formatSettings]) /\
    (forall k v, k ≠ After -> o !! k = Some v -> setting formatSettings k = v) /\
    (forall k, k ≠ After -> o !! k = None ->
       setting formatSettings k
       = setting (defaultJsFormattingOptions formatParams initialIndentLevel) k) /\
    setting formatSettings After = default JUndefined (o !! Before).
Proof.
  intros Hjs initialIndentLevel.
  assert (Hv : get_prop (JObj o) Before = Ok (default JUndefined (o !! Before)))
    by reflexivity.
  eexists _, _. split; [apply (format_run doc range formatParams st _ _ Hjs Hv)|].
  split; [|split].
  - intros k v Hk Hov. by rewrite setting_insert_other, convertOptions_object, Hov.
  - intros k Hk Hov. by rewrite setting_insert_other, convertOptions_object, Hov.
  - unfold setting. by rewrite lookup_insert_eq.
Qed.

(** X11.  When the object under [config.vetur.format.js] leaves them alone,
    the settings follow the host's formatting options: [TabSize] and
    [IndentSize] are the tab size, [ConvertTabsToSpaces] is [insertSpaces],
    and [BaseIndentSize] is the tab size when [scriptInitialIndent] is
    truthy and 0 otherwise. *)
Theorem format_settings_follow_host_options doc range formatParams st (o : gmap string jsval) :
  vetur_format_js (config st) = Ok (JObj o) ->
  o !! "TabSize" = None -> o !! "IndentSize" = None ->
  o !! "BaseIndentSize" = None -> o !! "ConvertTabsToSpaces" = None ->
  exists edits formatSettings,
    format doc range formatParams st
    = (Ok edits,
       after doc st
         [SvcGetFormattingEditsForRange (getFileFsPath (uri doc))
            (offsetAt (scriptDocOf doc st) (range_start range))
            (offsetAt (scriptDocOf doc st) (range_end range))
            formatSettings]) /\
    setting formatSettings "TabSize" = JNum (tabSize formatParams) /\
    setting formatSettings "IndentSize" = JNum (tabSize formatParams) /\
    setting formatSettings "ConvertTabsToSpaces" = JBool (insertSpaces formatParams) /\
    setting formatSettings "BaseIndentSize"
    = JNum (if truthy (scriptInitialIndent formatParams) then tabSize formatParams else 0).
Proof.
  intros Hjs Htab Hindent Hbase Hconvert.
  assert (Hv : get_prop (JObj o) Before = Ok (default JUndefined (o !! Before)))
    by reflexivity.
  eexists _, _. split; [apply (format_run doc range formatParams st _ _ Hjs Hv)|].
  assert (Hread : forall k, k ≠ After -> o !! k = None ->
     setting (<[After := default JUndefined (o !! Before)]>
                (convertOptions formatParams (JObj o)
                   (if truthy (scriptInitialIndent formatParams) then 1 else 0))) k
     = setting (defaultJsFormattingOptions formatParams
                  (if truthy (scriptInitialIndent formatParams) then 1 else 0)) k).
  { intros k Hk Hov. by rewrite setting_insert_other, convertOptions_object, Hov. }
  rewrite !Hread by done. repeat split.
  change (JNum (tabSize formatParams
                * (if truthy (scriptInitialIndent formatParams) then 1 else 0))
          = JNum (if truthy (scriptInitialIndent formatParams)
                  then tabSize formatParams else 0)).
  f_equal. destruct (truthy (scriptInitialIndent formatParams)); lia.
Qed.

(** *** A mode on a workspace *)

(** X12.  For a workspace path that is not empty, [getJavascriptMode]
    builds a document cache (10 entries, 60 seconds) and a service host for
    the path and returns the mode 'javascript' with [config = {}].  In that
    state [format] throws a TypeError on [config.vetur.format] and calls
    nothing; after [configure] with a configuration whose
    [vetur.format.js.InsertSpaceBeforeFunctionParenthesis] can be read,
    [format] reaches the engine. *)
Theorem fresh_mode_formats_only_once_configured (documentRegions : RegionsCache)
    (path : string) :
  path ≠ "" ->
  let instance := getJavascriptMode documentRegions (wp_string path) in
  exists st0,
    initial instance = Some st0 /\
    config st0 = JObj ∅ /\ trace st0 = [] /\
    created instance = [NewLanguageModelCache 10 60; NewServiceHost path] /\
    lm_getId (sm_base (mode instance)) tt = "javascript" /\
    lm_format (sm_base (mode instance)) = Some format /\
    lm_configure (sm_base (mode instance)) = Some configure /\
    (forall doc range formatParams,
       format doc range formatParams st0
       = (Throw (TypeError "Cannot read property 'format' of undefined"), st0)) /\
    (forall c v doc range formatParams,
       vetur_format_js_Before c = Ok v ->
       exists st1 edits formatSettings,
         configure c st0 = (Ok tt, st1) /\
         trace st1 = [] /\
         format doc range formatParams st1
         = (Ok edits,
            after doc st1
              [SvcGetFormattingEditsForRange (getFileFsPath (uri doc))
                 (offsetAt (scriptDocOf doc st1) (range_start range))
                 (offsetAt (scriptDocOf doc st1) (range_end range))
                 formatSettings])).
Proof.
  intros Hpath instance. subst instance. unfold getJavascriptMode. cbn [wp_falsy].
  destruct (String.eqb_spec path "") as [->|_]; [done|].
  eexists. split; [reflexivity|]. cbn [config trace created mode sm_base lm_getId lm_format
                                         lm_configure javascriptMode].
  do 6 (split; [reflexivity|]). split.
  - intros doc range formatParams. by apply format_throws.
  - intros c v doc range formatParams Hread.
    eexists.
    destruct (format_calls_engine doc range formatParams
                {| config := c;
                   host := getServiceHost path
                             (getLanguageModelCache 10 60
                                (fun document =>
                                   getEmbeddedDocumentByType
                                     (regions_get documentRegions document) "script"));
                   trace := [] |} v Hread) as (edits & formatSettings & Hrun).
    exists edits, formatSettings. split; [reflexivity|]. split; [reflexivity|]. exact Hrun.
Qed.

End MoreProperties.

(** ** The rest of the operations at the fixture *)

Lemma fxDoc_inProgram_rich (c : jsval) : inProgram (E := fxRichExternals) fxDoc (fxState c).
Proof. unfold inProgram. apply (bool_decide_unpack _). vm_compute. exact I. Defined.

(** The missing semicolon comes before the unknown name. *)
Lemma doValidation_reports_every_diagnostic_witness :
  map message (default [] (match (doValidation (E := fxRichExternals) fxDoc
                                    (fxState JUndefined)).1 with
                           | Ok diagnostics => Some diagnostics
                           | Throw _ => None
                           end))
  = ["';' expected."; "Cannot find name 'foo'."].
Proof.
  destruct (doValidation_reports_every_diagnostic (E := fxRichExternals) fxDoc
              (fxState JUndefined) (fxDoc_inProgram_rich JUndefined))
    as (diagnostics & Hrun & -> & _).
  rewrite Hrun. reflexivity.
Defined.

Lemma doHover_contents_witness :
  exists hover st',
    doHover (E := fxRichExternals) fxDoc fxPosition (fxState JUndefined) = (Ok hover, st') /\
    contents hover
    = [MarkedText "the answer"; MarkedText (String LF ""); MarkedCode "ts" "let x: number"].
Proof.
  destruct (doHover_contents (E := fxRichExternals) fxDoc fxPosition (fxState JUndefined)
              (fxDoc_inProgram_rich JUndefined)) as (hover & Hrun & Hhover).
  cbn in Hhover. destruct Hhover as (_ & _ & Hcontents).
  exists hover. eexists. split; [exact Hrun|]. apply Hcontents. discriminate.
Defined.

Lemma doSignatureHelp_labels_witness :
  exists help st',
    doSignatureHelp (E := fxRichExternals) fxDoc fxPosition (fxState JUndefined)
    = (Ok help, st') /\
    activeParameter help = 1 /\
    Forall (fun signature => sig_label signature = "foo(a: number, b: string): void")
           (signatures help).
Proof.
  destruct (doSignatureHelp_labels (E := fxRichExternals) fxDoc fxPosition
              (fxState JUndefined) (fxDoc_inProgram_rich JUndefined))
    as (help & Hrun & Hhelp).
  cbn in Hhelp. destruct Hhelp as (_ & Hactive & Hsignatures).
  exists help. eexists. split; [exact Hrun|]. split; [exact Hactive|].
  inversion Hsignatures as [|item signature items rest (Hparameters & _ & Hlabel) Hrest];
    subst. inversion Hrest; subst.
  constructor; [|constructor]. rewrite Hlabel, Hparameters. reflexivity.
Defined.

Lemma findDocumentHighlight_kinds_witness :
  exists highlights st',
    findDocumentHighlight (E := fxRichExternals) fxDoc fxPosition (fxState JUndefined)
    = (Ok highlights, st') /\
    map hl_kind highlights = [HighlightWrite; HighlightText].
Proof.
  destruct (findDocumentHighlight_kinds (E := fxRichExternals) fxDoc fxPosition
              (fxState JUndefined) (fxDoc_inProgram_rich JUndefined))
    as (highlights & Hrun & -> & _).
  eexists _, _. split; [exact Hrun|]. reflexivity.
Defined.

(** The fixture's tree has five items and two signatures besides the root's. *)
Lemma findDocumentSymbols_one_symbol_per_signature_witness :
  exists symbols st',
    findDocumentSymbols (E := fxRichExternals) fxDoc (fxState JUndefined)
    = (Ok symbols, st') /\
    length symbols = 2%nat.
Proof.
  destruct (findDocumentSymbols_one_symbol_per_signature (E := fxRichExternals) fxDoc
              (fxState JUndefined) fxTree (fxDoc_inProgram_rich JUndefined) eq_refl)
    as (symbols & Hrun & Hlength & _).
  exists symbols. eexists. split; [exact Hrun|]. rewrite Hlength.
  vm_compute. reflexivity.
Defined.

(** An item that did not come from [doComplete] has nothing to resolve with. *)
Lemma doResolve_needs_payload_witness :
  (doResolve (E := fxExternals) fxDoc fxNullCompletion (fxState JUndefined)).1
  = Throw (TypeError "Cannot read property 'offset' of undefined").
Proof.
  destruct (doResolve_needs_payload (E := fxExternals) fxDoc fxNullCompletion
              (fxState JUndefined) (fxDoc_inProgram JUndefined)) as (Hthrows & _).
  rewrite (Hthrows eq_refl). reflexivity.
Defined.

(** The entry [x], completed at offset 12 and resolved later. *)
Lemma completion_items_resolve_at_request_offset_witness :
  exists resolved st',
    doResolve (E := fxExternals) fxDoc
      (completionItem fxDoc fxDoc fxPosition 12
         {| entry_name := "x"; entry_kind := "var"; entry_sortText := "0";
            replacementSpan := None |})
      (fxState fxConfig)
    = (Ok resolved, st') /\
    detail resolved = Some "let x: number" /\
    data resolved = None /\
    trace st' = [HostUpdateCurrentTextDocument "/a.vue"; SvcGetRootFileNames;
                 SvcGetCompletionEntryDetails "/a.vue" 12 "x"].
Proof.
  destruct (completion_items_resolve_at_request_offset (E := fxExternals) fxDoc fxPosition
              (fxState JUndefined)
              {| entry_name := "x"; entry_kind := "var"; entry_sortText := "0";
                 replacementSpan := None |}
              {| entries := fxEntries |}
              (fxDoc_inProgram JUndefined) eq_refl
              (list_elem_of_here _ _) ltac:(discriminate))
    as (_ & Hresolve).
  specialize (Hresolve fxDoc (fxState fxConfig) (fxDoc_inProgram fxConfig)).
  eexists _, _. split; [exact Hresolve|]. repeat split.
Defined.

(** The fixture's configuration sets the one key, to [false]. *)
Lemma format_settings_overrides_win_witness :
  exists edits formatSettings st',
    format (E := fxExternals) fxDoc fxRange fxOptions (fxState fxConfig) = (Ok edits, st') /\
    trace st' = [HostUpdateCurrentTextDocument "/a.vue";
                 SvcGetFormattingEditsForRange "/a.vue" 0 9 formatSettings] /\
    setting formatSettings Before = JBool false /\
    setting formatSettings After = JBool false /\
    setting formatSettings "InsertSpaceAfterCommaDelimiter" = JBool true.
Proof.
  destruct (format_settings_overrides_win (E := fxExternals) fxDoc fxRange fxOptions
              (fxState fxConfig) {[ "InsertSpaceBeforeFunctionParenthesis" := JBool false ]}
              eq_refl)
    as (edits & formatSettings & Hrun & Hset & Hdefault & Hafter).
  exists edits, formatSettings. eexists. split; [exact Hrun|]. split; [reflexivity|].
  split; [|split].
  - apply Hset; [discriminate|reflexivity].
  - rewrite Hafter. reflexivity.
  - rewrite Hdefault; [reflexivity|discriminate|reflexivity].
Defined.

Lemma format_settings_follow_host_options_witness :
  exists edits formatSettings st',
    format (E := fxExternals) fxDoc fxRange
      {| tabSize := 4; insertSpaces := false; scriptInitialIndent := JBool true |}
      (fxState fxConfig)
    = (Ok edits, st') /\
    trace st' = [HostUpdateCurrentTextDocument "/a.vue";
                 SvcGetFormattingEditsForRange "/a.vue" 0 9 formatSettings] /\
    setting formatSettings "TabSize" = JNum 4 /\
    setting formatSettings "BaseIndentSize" = JNum 4 /\
    setting formatSettings "ConvertTabsToSpaces" = JBool false.
Proof.
  destruct (format_settings_follow_host_options (E := fxExternals) fxDoc fxRange
              {| tabSize := 4; insertSpaces := false; scriptInitialIndent := JBool true |}
              (fxState fxConfig) {[ "InsertSpaceBeforeFunctionParenthesis" := JBool false ]}
              eq_refl eq_refl eq_refl eq_refl eq_refl)
    as (edits & formatSettings & Hrun & Htab & _ & Hconvert & Hbase).
  exists edits, formatSettings. eexists. split; [exact Hrun|]. split; [reflexivity|].
  split; [exact Htab|]. split; [exact Hbase|exact Hconvert].
Defined.

Lemma fresh_mode_formats_only_once_configured_witness :
  created (getJavascriptMode (E := fxExternals) tt (wp_string "/work"))
  = [NewLanguageModelCache 10 60; NewServiceHost "/work"] /\
  exists st0,
    initial (getJavascriptMode (E := fxExternals) tt (wp_string "/work")) = Some st0 /\
    (format (E := fxExternals) fxDoc fxRange fxOptions st0).1
    = Throw (TypeError "Cannot read property 'format' of undefined").
Proof.
  destruct (fresh_mode_formats_only_once_configured (E := fxExternals) tt "/work"
              ltac:(discriminate))
    as (st0 & Hinitial & _ & _ & Hcreated & _ & _ & _ & Hthrows & _).
  split; [exact Hcreated|]. exists st0. split; [exact Hinitial|].
  rewrite Hthrows. reflexivity.
Defined.

(** ** Containers *)

Section Containers.
Variables doc scriptDoc : TextDocument.

Lemma labelKnown_app containerLabel symbols new :
  labelKnown containerLabel symbols -> labelKnown containerLabel (symbols ++ new).
Proof.
  intros [->|(j & s & Hj & ->)]; [by left|]. right. exists j, s. split; [|done].
  by apply lookup_app_l_Some.
Qed.

Lemma containersPrecede_push symbols item containerLabel :
  containersPrecede symbols ->
  labelKnown containerLabel symbols ->
  containersPrecede (symbols ++ [symbolOf doc scriptDoc item containerLabel]).
Proof.
  intros Hsymbols Hlabel i s Hi.
  destruct (decide (i < length symbols)%nat) as [Hlt|Hge].
  - rewrite lookup_app_l in Hi by done.
    destruct (Hsymbols i s Hi) as [Hnone|(j & s' & Hj & Hs' & Hc)]; [by left|].
    right. exists j, s'. split; [done|]. split; [|done]. by apply lookup_app_l_Some.
  - rewrite lookup_app_r in Hi by lia.
    destruct (i - length symbols)%nat as [|n] eqn:Hn; [|by destruct n].
    cbn in Hi. injection Hi as <-. cbn [containerName symbolOf].
    destruct Hlabel as [->|(j & s' & Hj & ->)]; [by left|].
    right. exists j, s'. split; [|split; [by apply lookup_app_l_Some|done]].
    apply lookup_lt_Some in Hj. lia.
Qed.

Lemma collectSymbols_containers item :
  forall containerLabel o,
    containersPrecede (result_ o) ->
    labelKnown containerLabel (result_ o) ->
    containersPrecede (result_ (collectSymbols doc scriptDoc item containerLabel o)) /\
    exists new, result_ (collectSymbols doc scriptDoc item containerLabel o)
                = result_ o ++ new.
Proof.
  induction item as [item IH] using NavigationBarItem_tree_ind.
  assert (Hall : forall containerLabel o,
             containersPrecede (result_ o) ->
             labelKnown containerLabel (result_ o) ->
             containersPrecede
               (result_ (collectAll doc scriptDoc (children item) containerLabel o)) /\
             exists new, result_ (collectAll doc scriptDoc (children item) containerLabel o)
                         = result_ o ++ new).
  { induction IH as [|child l Hchild _ IHl]; intros containerLabel o Ho Hlabel.
    - split; [exact Ho|]. exists []. by rewrite app_nil_r.
    - rewrite collectAll_cons.
      destruct (Hchild containerLabel o Ho Hlabel) as (Ho' & new & Hnew).
      destruct (IHl containerLabel _ Ho') as (Ho'' & new' & Hnew').
      { rewrite Hnew. by apply labelKnown_app. }
      split; [exact Ho''|]. exists (new ++ new'). by rewrite Hnew', Hnew, app_assoc. }
  intros containerLabel o Ho Hlabel. rewrite collectSymbols_eq.
  destruct (emits item o).
  - destruct (Hall (Some (nav_text item)) (emitted doc scriptDoc item containerLabel o))
      as (Ho' & new & Hnew).
    + unfold emitted. cbn [result_]. by apply containersPrecede_push.
    + right. exists (length (result_ o)), (symbolOf doc scriptDoc item containerLabel).
      split; [|reflexivity]. unfold emitted. cbn [result_].
      by rewrite lookup_app_r, Nat.sub_diag.
    + split; [exact Ho'|]. eexists. rewrite Hnew. unfold emitted. cbn [result_].
      by rewrite <- app_assoc.
  - by apply Hall.
Qed.

Lemma collectAll_containers items :
  forall containerLabel o,
    containersPrecede (result_ o) ->
    labelKnown containerLabel (result_ o) ->
    containersPrecede (result_ (collectAll doc scriptDoc items containerLabel o)).
Proof.
  induction items as [|item items IH]; intros containerLabel o Ho Hlabel; [exact Ho|].
  rewrite collectAll_cons.
  destruct (collectSymbols_containers item containerLabel o Ho Hlabel) as (Ho' & new & Hnew).
  apply IH; [exact Ho'|]. rewrite Hnew. by apply labelKnown_app.
Qed.

End Containers.

(** X14.  In an outline built from scratch every symbol's containerName is
    undefined or the name of a symbol that comes earlier in the outline:
    a container is never the name of an item that was itself suppressed or
    skipped. *)
Theorem outline_containers_are_earlier_symbols (doc scriptDoc : TextDocument)
    (items : list NavigationBarItem) :
  containersPrecede (result_ (collectAll doc scriptDoc items None emptyOutline)).
Proof.
  apply collectAll_containers; [|by left].
  intros i s Hi. cbn in Hi. by rewrite lookup_nil in Hi.
Qed.

Section EmptyRange.
Context {T : ExtTypes} {E : Externals}.


End EmptyRange.

